(** * Logi Circle camera platform (camera.py): a shallow embedding

    The module is a thin adapter between a home-automation host and the
    vendor SDK.  Python values are dynamically typed, so the embedding
    works over a small universe [pyval] of the values that flow through
    the module; a coroutine becomes a computation in a state-and-error
    monad over a [World] that holds the SDK objects, the trace of the
    calls made to the collaborators, and the error log. *)

From Stdlib Require Import ZArith Ascii.
From stdpp Require Import gmap strings list functions.

Open Scope Z_scope.

(** ** Python values and exceptions *)

(** The exception classes that the module or its collaborators raise. *)
Inductive exn :=
  | BrokenPipeError
  | ConnectionResetError
  | TimeoutError
  | CancelledError
  | ClientError
  | TemplateError
  | TypeError
  | AttributeError
  | KeyError
  | OverflowError.

Global Instance exn_eq_dec : EqDecision exn.
Proof. solve_decision. Defined.

(** Outcome of a call: a value, or a raised exception. *)
Inductive Result (A : Type) :=
  | Return (a : A)
  | Raise (e : exn).
Arguments Return {A} a.
Arguments Raise {A} e.

(** A host template object ([cv.template]): its source text. *)
Record Template := { template : string }.

#[warnings="-register-all"]
Inductive pyval :=
  | VNone
  | VBool (b : bool)
  | VInt (z : Z)
  | VStr (s : string)
  | VBytes (bs : list Byte.byte)
  | VList (l : list pyval)
  | VTemplate (t : Template)
  | VActivity (download_url : string)
  | VObject (id : nat).

(** [bool(v)]: Python truthiness. *)
Definition truthy (v : pyval) : bool :=
  match v with
  | VNone => false
  | VBool b => b
  | VInt z => negb (z =? 0)
  | VStr s => match s with EmptyString => false | _ => true end
  | VBytes bs => match bs with [] => false | _ => true end
  | VList l => match l with [] => false | _ => true end
  | VTemplate _ | VActivity _ | VObject _ => true
  end.

(** [v == s] for a string [s]: only an equal string compares equal. *)
Definition eq_str (s : string) (v : pyval) : bool :=
  match v with
  | VStr t => String.eqb s t
  | _ => false
  end.

(** [x == v] where [x] is an entity identifier: a string, or [None]
    for an entity the host has not registered yet. *)
Definition eq_id (x : option string) (v : pyval) : bool :=
  match x, v with
  | Some s, _ => eq_str s v
  | None, VNone => true
  | None, _ => false
  end.

(** [s in t] on two strings: [s] occurs in [t]. *)
Fixpoint is_substring (s t : string) : bool :=
  String.prefix s t ||
  match t with
  | EmptyString => false
  | String _ t' => is_substring s t'
  end.

(** [x in container]: membership in a list, substring test in a string,
    [TypeError] for a value that is not a container. *)
Definition py_in (x : option string) (container : pyval) : Result bool :=
  match container with
  | VList l => Return (existsb (eq_id x) l)
  | VStr t =>
      match x with
      | Some s => Return (is_substring s t)
      | None => Raise TypeError
      end
  | _ => Raise TypeError
  end.

(** [datetime.timedelta]: a time span normalised to days and seconds;
    the days must stay within +-999999999. *)
Record timedelta_t := { days : Z; seconds : Z }.

Definition total_seconds (td : timedelta_t) : Z := days td * 86400 + seconds td.

Definition timedelta_of_seconds (z : Z) : Result timedelta_t :=
  let d := z `div` 86400 in
  if bool_decide (-999999999 ≤ d ≤ 999999999)
  then Return {| days := d; seconds := z `mod` 86400 |}
  else Raise OverflowError.

(** [timedelta(seconds=v)]. *)
Definition timedelta (v : pyval) : Result timedelta_t :=
  match v with
  | VInt z => timedelta_of_seconds z
  | VBool b => timedelta_of_seconds (if b then 1 else 0)
  | _ => Raise TypeError
  end.

(** ** Collaborators and the world *)

(** The calls the module makes on a Device Handle (the SDK camera). *)
Module SDK.
Inductive Call :=
  | set_led (value : pyval)
  | set_privacy_mode (value : pyval)
  | set_battery_saving_mode (value : pyval)
  | set_streaming_mode (value : pyval)
  | get_snapshot_image
  | last_activity
  | update
  | record_livestream (filename : string) (duration : timedelta_t)
  | get_livestream_image (filename : string).

(** The state of one SDK camera object, as far as the module reads it. *)
Record Device := {
  name : string;
  mac_address : string;
  supports_feature : string → bool;
  battery_saving : pyval;
  ip_address : pyval;
  microphone_gain : pyval;
  is_charging : pyval;
  battery_level : pyval;
  logi_cache : gmap string string   (* [_logi._cache] *)
}.
End SDK.

(** The transcoding process wrapper ([haffmpeg.camera.CameraMjpeg]) and the
    host's stream proxy. *)
Module Host.
Inductive Call :=
  | open_camera (binary input_source : string)
  | get_reader
  | close
  | async_aiohttp_proxy_stream (request stream_reader : pyval)
                               (content_type : string).
End Host.

Inductive Event :=
  | Await (dev : nat) (c : SDK.Call)     (* [await self._camera.c(...)] *)
  | Shield (dev : nat) (c : SDK.Call)    (* [asyncio.shield(self._camera.c(...))] *)
  | HostCall (c : Host.Call).

Record World := {
  handles : nat → SDK.Device;   (* the SDK objects, by reference *)
  trace : list Event;           (* calls made to the collaborators, oldest first *)
  log : list string             (* messages given to [_LOGGER.error] *)
}.

(** ** The monad of coroutines *)

Definition M (A : Type) : Type := World → Result A * World.

Global Instance M_ret : MRet M := λ A a w, (Return a, w).

Global Instance M_bind : MBind M := λ A B f m w,
  match m w with
  | (Return a, w') => f a w'
  | (Raise e, w') => (Raise e, w')
  end.

Definition raise {A} (e : exn) : M A := λ w, (Raise e, w).

Definition lift {A} (r : Result A) : M A := λ w, (r, w).

(** [for x in xs: body(x)]. *)
Fixpoint for_each {A} (xs : list A) (body : A → M unit) : M unit :=
  match xs with
  | [] => mret tt
  | x :: xs' => body x ;; for_each xs' body
  end.

(** [if c: body]. *)
Definition when (c : bool) (body : M unit) : M unit :=
  if c then body else mret tt.

(** How the body of a [finally] (or [except]) clause ends: it falls off
    its end, or it executes [return v]. *)
Inductive Completion (A : Type) :=
  | FallThrough
  | Returns (v : A).
Arguments FallThrough {A}.
Arguments Returns {A} v.

(** [try: body / finally: fin], where [body] ends in [return] or raises.
    The [finally] clause always runs.  If it falls through, the pending
    return value or exception of [body] goes on; if it returns, its value
    replaces whatever was pending; if it raises, its exception does. *)
Definition try_finally {A} (body : M A) (fin : M (Completion A)) : M A := λ w,
  let '(r, w1) := body w in
  match fin w1 with
  | (Return FallThrough, w2) => (r, w2)
  | (Return (Returns v), w2) => (Return v, w2)
  | (Raise e, w2) => (Raise e, w2)
  end.

(** [try: body / except cls: handler], with [body] a statement. *)
Definition try_except {A} (body : M unit) (cls : exn) (handler : M (Completion A))
  : M (Completion A) := λ w,
  match body w with
  | (Return _, w1) => (Return FallThrough, w1)
  | (Raise e, w1) =>
      if bool_decide (e = cls) then handler w1 else (Raise e, w1)
  end.

(** ** The module *)

Definition SERVICE_SET_CONFIG : string := "logi_circle_set_config".
Definition SERVICE_LIVESTREAM_SNAPSHOT : string := "logi_circle_livestream_snapshot".
Definition SERVICE_LIVESTREAM_RECORD : string := "logi_circle_livestream_record".

Definition BATTERY_SAVING_MODE_KEY : string := "BATTERY_SAVING".
Definition PRIVACY_MODE_KEY : string := "PRIVACY_MODE".
Definition LED_MODE_KEY : string := "LED".

(** The host's ffmpeg manager ([hass.data[DATA_FFMPEG]]). *)
Record FFmpegManager := {
  binary : string;
  ffmpeg_stream_content_type : string
}.

(** A [LogiCam] object.  [_camera] is a reference to the SDK object in the
    world; [entity_id] is the attribute the host assigns on registration
    ([None] before). *)
Record LogiCam := {
  _camera : nat;
  _name : string;
  _id : string;
  _has_battery : bool;
  _ffmpeg : FFmpegManager;
  entity_id : option string
}.

(** A service call as the host hands it to the handler. *)
Record ServiceCall := {
  service : string;
  data : gmap string pyval
}.

Section Platform.

(** Constants the module imports from the host framework and from its own
    package; their values are not part of this file. *)
Context (ATTR_ENTITY_ID ATTR_ATTRIBUTION ATTR_BATTERY_CHARGING
         ATTR_BATTERY_LEVEL STATE_ON STATE_OFF ATTRIBUTION : string).

(** The collaborators.  The SDK answers an awaited call with a value or
    an exception and the new state of the SDK object; the transcoding
    process and the stream proxy answer likewise.  Each may depend on
    everything that happened before. *)
Context (sdk : World → nat → SDK.Call → Result pyval * SDK.Device).
Context (host : World → Host.Call → Result pyval).

(** [hass.config.is_allowed_path] and [Template.async_render] with the
    variables [{ATTR_ENTITY_ID: entity_id}]. *)
Context (is_allowed_path : string → bool).
Context (async_render : Template → option string → Result string).

(** *** Primitive effects *)

(** [await self._camera.c(...)]. *)
Definition await_sdk (dev : nat) (c : SDK.Call) : M pyval := λ w,
  let '(r, d) := sdk w dev c in
  (r, {| handles := <[dev := d]> (handles w);
         trace := trace w ++ [Await dev c];
         log := log w |}).

(** [asyncio.shield(self._camera.c(...), loop=...)]: the call is made and
    handed to the loop; the coroutine does not wait for it. *)
Definition shield (dev : nat) (c : SDK.Call) : M unit := λ w,
  (Return tt, {| handles := handles w;
                 trace := trace w ++ [Shield dev c];
                 log := log w |}).

(** [await] a call on the transcoding process or the stream proxy. *)
Definition await_host (c : Host.Call) : M pyval := λ w,
  (host w c, {| handles := handles w;
                trace := trace w ++ [HostCall c];
                log := log w |}).

(** [_LOGGER.error(msg)]. *)
Definition logger_error (msg : string) : M unit := λ w,
  (Return tt, {| handles := handles w;
                 trace := trace w;
                 log := log w ++ [msg] |}).

(** *** LogiCam *)

(** [LogiCam.__init__(self, camera, device_info, ffmpeg)]. *)
Definition __init__ (camera : nat) (device_info : gmap string pyval)
    (ffmpeg : FFmpegManager) (w : World) : LogiCam :=
  {| _camera := camera;
     _name := SDK.name (handles w camera);
     _id := SDK.mac_address (handles w camera);
     _has_battery := SDK.supports_feature (handles w camera) "battery_level";
     _ffmpeg := ffmpeg;
     entity_id := None |}.

(** [async_setup_platform]: one adapter for each discovered camera, in the
    order of discovery.  This list is the [cameras] that the service handler
    is closed over. *)
Definition async_setup_platform (devices : list nat)
    (config : gmap string pyval) (ffmpeg : FFmpegManager) (w : World)
  : list LogiCam :=
  (λ device, __init__ device config ffmpeg w) <$> devices.

(** What the host does when it registers the entity. *)
Definition register (id : string) (self : LogiCam) : LogiCam :=
  {| _camera := _camera self; _name := _name self; _id := _id self;
     _has_battery := _has_battery self; _ffmpeg := _ffmpeg self;
     entity_id := Some id |}.

(** [LogiCam.device_state_attributes]. *)
Definition device_state_attributes (self : LogiCam) (w : World)
  : gmap string pyval :=
  let camera := handles w (_camera self) in
  let state : gmap string pyval :=
    <["microphone_gain" := SDK.microphone_gain camera]>
    (<["ip_address" := SDK.ip_address camera]>
    (<["battery_saving_mode" :=
         VStr (if truthy (SDK.battery_saving camera) then STATE_ON else STATE_OFF)]>
    (<[ATTR_ATTRIBUTION := VStr ATTRIBUTION]> ∅))) in
  if _has_battery self then
    <[ATTR_BATTERY_LEVEL := SDK.battery_level camera]>
    (<[ATTR_BATTERY_CHARGING := SDK.is_charging camera]> state)
  else state.

(** [LogiCam.async_camera_image]. *)
Definition async_camera_image (self : LogiCam) : M pyval :=
  await_sdk (_camera self) SDK.get_snapshot_image.

(** [LogiCam.async_turn_off] and [LogiCam.async_turn_on]. *)
Definition async_turn_off (self : LogiCam) : M unit :=
  await_sdk (_camera self) (SDK.set_streaming_mode (VBool false)) ;; mret tt.

Definition async_turn_on (self : LogiCam) : M unit :=
  await_sdk (_camera self) (SDK.set_streaming_mode (VBool true)) ;; mret tt.

(** [LogiCam.async_update]. *)
Definition async_update (self : LogiCam) : M unit :=
  await_sdk (_camera self) SDK.update ;; mret tt.

(** [LogiCam.set_config(self, mode, value)]. *)
Definition set_config (self : LogiCam) (mode value : pyval) : M unit :=
  when (eq_str LED_MODE_KEY mode)
    (await_sdk (_camera self) (SDK.set_led value) ;; mret tt) ;;
  when (eq_str PRIVACY_MODE_KEY mode)
    (await_sdk (_camera self) (SDK.set_privacy_mode value) ;; mret tt) ;;
  when (eq_str BATTERY_SAVING_MODE_KEY mode)
    (await_sdk (_camera self) (SDK.set_battery_saving_mode value) ;; mret tt).

(** [filename.hass = self.hass]: only a template object takes the
    attribute; the built-in values raise [AttributeError]. *)
Definition set_hass (filename : pyval) : M Template :=
  match filename with
  | VTemplate t => mret t
  | _ => raise AttributeError
  end.

Definition no_access (file : string) : string :=
  "Can't write " +:+ file +:+ ", no access to path!".

(** [LogiCam.download_livestream(self, filename, duration)]. *)
Definition download_livestream (self : LogiCam) (filename duration : pyval)
  : M unit :=
  tpl ← set_hass filename;
  stream_file ← lift (async_render tpl (entity_id self));
  if negb (is_allowed_path stream_file) then
    logger_error (no_access stream_file)
  else
    td ← lift (timedelta duration);
    shield (_camera self) (SDK.record_livestream stream_file td).

(** [LogiCam.livestream_snapshot(self, filename)]. *)
Definition livestream_snapshot (self : LogiCam) (filename : pyval) : M unit :=
  tpl ← set_hass filename;
  snapshot_file ← lift (async_render tpl (entity_id self));
  if negb (is_allowed_path snapshot_file) then
    logger_error (no_access snapshot_file)
  else
    shield (_camera self) (SDK.get_livestream_image snapshot_file).

(** [self._camera._logi._cache['cookie']]. *)
Definition session_cache (dev : nat) (key : string) : M string := λ w,
  match SDK.logi_cache (handles w dev) !! key with
  | Some v => (Return v, w)
  | None => (Raise KeyError, w)
  end.

(** [last_activity.download_url]. *)
Definition download_url_of (last_activity : pyval) : M string :=
  match last_activity with
  | VActivity url => mret url
  | _ => raise AttributeError
  end.

Definition dquote : string := String "034"%char EmptyString.

(** [LogiCam.handle_async_mjpeg_stream(self, request)], in the three
    parts it is written in.  First the statements before the [try]: they
    resolve the download URL and the session header and open the
    transcoding process on them. *)
Definition open_stream (self : LogiCam) : M unit :=
  last_activity ← await_sdk (_camera self) SDK.last_activity;
  session_cookie ← session_cache (_camera self) "cookie";
  let header := dquote +:+ "X-Logi-Auth: " +:+ session_cookie +:+ dquote in
  url ← download_url_of last_activity;
  await_host (Host.open_camera (binary (_ffmpeg self))
                ("-headers " +:+ header +:+ " -i " +:+ url)) ;;
  mret tt.

(** The body of the [try]: the byte copy from the process to the client. *)
Definition proxy_stream (self : LogiCam) (request : pyval) : M pyval :=
  stream_reader ← await_host Host.get_reader;
  await_host (Host.async_aiohttp_proxy_stream request stream_reader
                (ffmpeg_stream_content_type (_ffmpeg self))).

(** The [finally] clause: close the process; on [BrokenPipeError],
    [return]. *)
Definition close_stream : M (Completion pyval) :=
  try_except (await_host Host.close ;; mret tt)
             BrokenPipeError
             (mret (Returns VNone)).

Definition handle_async_mjpeg_stream (self : LogiCam) (request : pyval)
  : M pyval :=
  open_stream self ;;
  try_finally (proxy_stream self request) close_stream.

(** *** The dispatcher *)

(** A method called with the dictionary [params] as its keyword arguments,
    for a method of one, and of two, parameters: [TypeError] when a
    parameter is missing or a keyword is unexpected. *)
Definition call_kw1 (p : string) (method : pyval → M unit)
    (params : gmap string pyval) : M unit :=
  match params !! p with
  | Some a =>
      if bool_decide (size params = 1%nat) then method a else raise TypeError
  | None => raise TypeError
  end.

Definition call_kw2 (p q : string) (method : pyval → pyval → M unit)
    (params : gmap string pyval) : M unit :=
  match params !! p, params !! q with
  | Some a, Some b =>
      if bool_decide (size params = 2%nat) then method a b else raise TypeError
  | _, _ => raise TypeError
  end.

(** [[x for x in xs if cond(x)]], where the condition may raise. *)
Fixpoint list_comp {A} (xs : list A) (cond : A → Result bool)
  : Result (list A) :=
  match xs with
  | [] => Return []
  | x :: xs' =>
      match cond x with
      | Raise e => Raise e
      | Return b =>
          match list_comp xs' cond with
          | Raise e => Raise e
          | Return ys => Return (if b then x :: ys else ys)
          end
      end
  end.

(** [service.data.get(key)]. *)
Definition dict_get (d : gmap string pyval) (key : string) : pyval :=
  default VNone (d !! key).

(** The value the handler gives its local variable [target_devices]. *)
Definition target_devices (cameras : list LogiCam) (call : ServiceCall)
  : Result (list LogiCam) :=
  let entity_ids := dict_get (data call) ATTR_ENTITY_ID in
  if truthy entity_ids
  then list_comp cameras (λ dev, py_in (entity_id dev) entity_ids)
  else Return cameras.

(** The body of the handler's loop. *)
Definition dispatch (call : ServiceCall) (params : gmap string pyval)
    (target_device : LogiCam) : M unit :=
  when (String.eqb (service call) SERVICE_SET_CONFIG)
    (call_kw2 "mode" "value" (set_config target_device) params) ;;
  when (String.eqb (service call) SERVICE_LIVESTREAM_SNAPSHOT)
    (call_kw1 "filename" (livestream_snapshot target_device) params) ;;
  when (String.eqb (service call) SERVICE_LIVESTREAM_RECORD)
    (call_kw2 "filename" "duration" (download_livestream target_device)
       params).

(** [service_handler(service)], closed over the list [cameras]. *)
Definition service_handler (cameras : list LogiCam) (call : ServiceCall)
  : M unit :=
  let params := filter (λ kv, kv.1 ≠ ATTR_ENTITY_ID) (data call) in
  targets ← lift (target_devices cameras call);
  for_each targets (dispatch call params).

(** *** The dispatcher in the words of the specification *)

(** The operation that corresponds to a command name. *)
Definition operation (name : string) (adapter : LogiCam)
    (params : gmap string pyval) : M unit :=
  if bool_decide (name = SERVICE_SET_CONFIG) then
    call_kw2 "mode" "value" (set_config adapter) params
  else if bool_decide (name = SERVICE_LIVESTREAM_SNAPSHOT) then
    call_kw1 "filename" (livestream_snapshot adapter) params
  else if bool_decide (name = SERVICE_LIVESTREAM_RECORD) then
    call_kw2 "filename" "duration" (download_livestream adapter) params
  else mret tt.

(** The adapters a target selector denotes: those whose identifier is in
    the explicit set, or all of them when no set is given. *)
Definition selected (cameras : list LogiCam) (ids : option (list string))
  : list LogiCam :=
  match ids with
  | Some ids => filter (λ dev, entity_id dev ∈ Some <$> ids) cameras
  | None => cameras
  end.

(** Invoke the operation on each selected adapter, in turn. *)
Definition spec_dispatch (cameras : list LogiCam) (name : string)
    (params : gmap string pyval) (ids : option (list string)) : M unit :=
  for_each (selected cameras ids) (λ adapter, operation name adapter params).

(** The operation of a service call on one adapter, with every parameter
    of the call but the identifier set. *)
Definition invoke (call : ServiceCall) (adapter : LogiCam) : M unit :=
  operation (service call) adapter (delete ATTR_ENTITY_ID (data call)).

(** A dispatcher that goes on to the remaining targets whatever the
    outcome of the operation on the current one. *)
Fixpoint for_each_regardless {A} (xs : list A) (body : A → M unit)
  : M unit :=
  match xs with
  | [] => mret tt
  | x :: xs' => λ w, for_each_regardless xs' body (body x w).2
  end.

Definition spec_dispatch_regardless (cameras : list LogiCam) (name : string)
    (params : gmap string pyval) (ids : option (list string)) : M unit :=
  for_each_regardless (selected cameras ids)
    (λ adapter, operation name adapter params).

End Platform.

(** ** A concrete installation

    Three cameras on a host whose whitelist holds the directory [/allowed/],
    with the values the host framework gives the imported constants.  The
    theorems below are exercised on it. *)
Module Scenario.

Definition ATTR_ENTITY_ID : string := "entity_id".
Definition ATTR_ATTRIBUTION : string := "attribution".
Definition ATTR_BATTERY_CHARGING : string := "battery_charging".
Definition ATTR_BATTERY_LEVEL : string := "battery_level".
Definition STATE_ON : string := "on".
Definition STATE_OFF : string := "off".
Definition ATTRIBUTION : string := "Data provided by circle.logi.com".

Definition circle (n : string) (mount_has_battery : bool) : SDK.Device :=
  {| SDK.name := n;
     SDK.mac_address := "AA:BB:CC:00:00:" +:+ n;
     SDK.supports_feature := λ feature,
       mount_has_battery && String.eqb feature "battery_level";
     SDK.battery_saving := VBool false;
     SDK.ip_address := VStr "192.168.1.20";
     SDK.microphone_gain := VInt 80;
     SDK.is_charging := VBool true;
     SDK.battery_level := VInt 55;
     SDK.logi_cache := {["cookie" := "prod_session=abc"]} |}.

Definition w0 : World :=
  {| handles := λ dev,
       match dev with
       | O => circle "01" true
       | S O => circle "02" false
       | _ => circle "03" true
       end;
     trace := [];
     log := [] |}.

(** An SDK that answers every call and leaves the object as it is; one
    on which the calls to one of the cameras fail. *)
Definition sdk_ok (w : World) (dev : nat) (c : SDK.Call)
  : Result pyval * SDK.Device :=
  (match c with
   | SDK.get_snapshot_image => Return (VBytes [Byte.xff; Byte.xd8])
   | SDK.last_activity => Return (VActivity "https://video.logi.com/a.mp4")
   | _ => Return VNone
   end, handles w dev).

Definition sdk_offline (unreachable : nat) (w : World) (dev : nat)
    (c : SDK.Call) : Result pyval * SDK.Device :=
  if bool_decide (dev = unreachable)
  then (Raise ClientError, handles w dev)
  else sdk_ok w dev c.

(** A transcoding process and proxy that work; a proxy whose copy fails;
    a close that finds the pipe broken; a close that times out. *)
Definition host_ok (w : World) (c : Host.Call) : Result pyval :=
  match c with
  | Host.get_reader => Return (VObject 1)
  | Host.async_aiohttp_proxy_stream _ _ _ => Return (VObject 2)
  | _ => Return VNone
  end.

Definition host_copy_fails (w : World) (c : Host.Call) : Result pyval :=
  match c with
  | Host.async_aiohttp_proxy_stream _ _ _ => Raise ConnectionResetError
  | _ => host_ok w c
  end.

Definition host_broken_pipe (copy_fails : bool) (w : World) (c : Host.Call)
  : Result pyval :=
  match c with
  | Host.close => Raise BrokenPipeError
  | _ => if copy_fails then host_copy_fails w c else host_ok w c
  end.

Definition host_close_times_out (w : World) (c : Host.Call) : Result pyval :=
  match c with
  | Host.close => Raise TimeoutError
  | _ => host_ok w c
  end.

Definition is_allowed_path (path : string) : bool :=
  String.prefix "/allowed/" path.

(** The renderer puts the entity identifier in place of a final [*]. *)
Fixpoint render_text (text id : string) : string :=
  match text with
  | EmptyString => EmptyString
  | String "*" EmptyString => id
  | String c text' => String c (render_text text' id)
  end.

Definition async_render (t : Template) (entity_id : option string)
  : Result string :=
  match entity_id with
  | Some id => Return (render_text (template t) id)
  | None => Raise TemplateError
  end.

Definition ffmpeg : FFmpegManager :=
  {| binary := "ffmpeg"; ffmpeg_stream_content_type := "multipart/x-mixed-replace" |}.

Definition cameras : list LogiCam :=
  zip_with register ["camera.cam1"; "camera.cam2"; "camera.cam3"]
    (async_setup_platform [0; 1; 2]%nat ∅ ffmpeg w0).

Definition cam (dev : nat) (id : string) : LogiCam :=
  register id (__init__ dev ∅ ffmpeg w0).

Definition cam1 := cam 0 "camera.cam1".
Definition cam2 := cam 1 "camera.cam2".
Definition cam3 := cam 2 "camera.cam3".

(** The three commands, addressed to no adapter in particular, and a
    command addressed to the targets [ids]. *)
Definition set_led_on : ServiceCall :=
  {| service := SERVICE_SET_CONFIG;
     data := {["mode" := VStr "LED"; "value" := VBool true]} |}.

Definition snapshot (file : string) : ServiceCall :=
  {| service := SERVICE_LIVESTREAM_SNAPSHOT;
     data := {["filename" := VTemplate {| template := file |}]} |}.

Definition record (file : string) (duration : Z) : ServiceCall :=
  {| service := SERVICE_LIVESTREAM_RECORD;
     data := {["filename" := VTemplate {| template := file |};
               "duration" := VInt duration]} |}.

Definition targeting (ids : pyval) (call : ServiceCall) : ServiceCall :=
  {| service := service call;
     data := <[ATTR_ENTITY_ID := ids]> (data call) |}.

Definition led_on : SDK.Call := SDK.set_led (VBool true).

Definition two_of_three : pyval :=
  VList [VStr "camera.cam1"; VStr "camera.cam3"].

(** The handler of the installation, over a given SDK; a stream request
    on the first camera, over a given host. *)
Definition handler (sdk : World → nat → SDK.Call → Result pyval * SDK.Device)
    (call : ServiceCall) : Result unit * World :=
  service_handler ATTR_ENTITY_ID sdk is_allowed_path async_render
    cameras call w0.

Definition stream (host : World → Host.Call → Result pyval)
  : Result pyval * World :=
  handle_async_mjpeg_stream sdk_ok host cam1 (VObject 7) w0.

(** Further collaborators: an SDK whose camera has no activity yet; a
    world whose session cache is empty; a transcoding process that cannot
    be started; one that gives no reader. *)
Definition sdk_no_activity (w : World) (dev : nat) (c : SDK.Call)
  : Result pyval * SDK.Device :=
  match c with
  | SDK.last_activity => (Return VNone, handles w dev)
  | _ => sdk_ok w dev c
  end.

Definition logged_out (d : SDK.Device) : SDK.Device :=
  {| SDK.name := SDK.name d;
     SDK.mac_address := SDK.mac_address d;
     SDK.supports_feature := SDK.supports_feature d;
     SDK.battery_saving := SDK.battery_saving d;
     SDK.ip_address := SDK.ip_address d;
     SDK.microphone_gain := SDK.microphone_gain d;
     SDK.is_charging := SDK.is_charging d;
     SDK.battery_level := SDK.battery_level d;
     SDK.logi_cache := ∅ |}.

Definition w_logged_out : World :=
  {| handles := λ dev, logged_out (handles w0 dev); trace := []; log := [] |}.

Definition host_cannot_start (w : World) (c : Host.Call) : Result pyval :=
  match c with
  | Host.open_camera _ _ => Raise TimeoutError
  | _ => host_ok w c
  end.

Definition host_no_reader (w : World) (c : Host.Call) : Result pyval :=
  match c with
  | Host.get_reader => Raise ConnectionResetError
  | _ => host_ok w c
  end.

(** A whitelist that holds one file only; the path a template ending in
    [*] renders to for an adapter. *)
Definition only_cam2 (path : string) : bool :=
  String.eqb path "/allowed/camera.cam2".

Definition path_of (text : string) (dev : LogiCam) : string :=
  match entity_id dev with
  | Some id => render_text text id
  | None => EmptyString
  end.

(** A command under a name the platform does not register, and a
    configuration command without its value. *)
Definition reboot : ServiceCall :=
  {| service := "logi_circle_reboot"; data := ∅ |}.

Definition set_led_without_value : ServiceCall :=
  {| service := SERVICE_SET_CONFIG; data := {["mode" := VStr "LED"]} |}.

(** The adapters as the platform set-up leaves them, before the host has
    registered them. *)
Definition fresh_cameras : list LogiCam :=
  async_setup_platform [0; 1; 2]%nat ∅ ffmpeg w0.

End Scenario.

(** ** Describing effects *)

(** The outcome of an awaited call whose value is not used. *)
Definition discard {A} (r : Result A) : Result unit :=
  match r with
  | Return _ => Return tt
  | Raise e => Raise e
  end.

(** The world after exactly one more awaited call [c] on the handle [dev],
      answered by [sdk]; after one more launched call; after one more
      logged error. *)
Definition awaited (sdk : World → nat → SDK.Call → Result pyval * SDK.Device)
    (dev : nat) (c : SDK.Call) (w : World) : World :=
  {| handles := <[dev := (sdk w dev c).2]> (handles w);
     trace := trace w ++ [Await dev c];
     log := log w |}.

Definition launched (dev : nat) (c : SDK.Call) (w : World) : World :=
  {| handles := handles w; trace := trace w ++ [Shield dev c]; log := log w |}.

Definition logged (msg : string) (w : World) : World :=
  {| handles := handles w; trace := trace w; log := log w ++ [msg] |}.

Definition host_called (c : Host.Call) (w : World) : World :=
  {| handles := handles w; trace := trace w ++ [HostCall c]; log := log w |}.

(** The Device Handle calls in a trace that concern the handle [dev]. *)
Definition calls_on (dev : nat) (t : list Event) : list SDK.Call :=
  omap (λ ev, match ev with
              | Await d c | Shield d c =>
                  if bool_decide (d = dev) then Some c else None
              | HostCall _ => None
              end) t.

(** ** Further notions *)

(** The argument the transcoding process is opened with: the session
    cookie as a quoted header, then the download URL. *)
Definition input_source (session_cookie url : string) : string :=
  "-headers " +:+ (dquote +:+ "X-Logi-Auth: " +:+ session_cookie +:+ dquote)
  +:+ " -i " +:+ url.

(** Whether the dictionary [params] gives a method its one parameter, or
    its two parameters, and nothing else; whether it gives the operation of
    the command [name] its parameters. *)
Definition binds1 (p : string) (params : gmap string pyval) : bool :=
  bool_decide (is_Some (params !! p)) && bool_decide (size params = 1%nat).

Definition binds2 (p q : string) (params : gmap string pyval) : bool :=
  bool_decide (is_Some (params !! p)) && bool_decide (is_Some (params !! q))
  && bool_decide (size params = 2%nat).

Definition binds (name : string) (params : gmap string pyval) : bool :=
  if bool_decide (name = SERVICE_SET_CONFIG) then binds2 "mode" "value" params
  else if bool_decide (name = SERVICE_LIVESTREAM_SNAPSHOT) then
    binds1 "filename" params
  else if bool_decide (name = SERVICE_LIVESTREAM_RECORD) then
    binds2 "filename" "duration" params
  else true.

(** The adapters served one after the other, written out on the worlds:
    the body runs on the first adapter; if it returns, the others are
    served from the world it left; if it raises, its exception is the
    outcome and the others are not served. *)
Fixpoint in_turn {A} (xs : list A) (body : A → World → Result unit * World)
    (w : World) : Result unit * World :=
  match xs with
  | [] => (Return tt, w)
  | x :: rest =>
      match body x w with
      | (Return _, w1) => in_turn rest body w1
      | (Raise e, w1) => (Raise e, w1)
      end
  end.

(** The string [s] occurs in the string [t]. *)
Definition occurs (s t : string) : Prop :=
  ∃ before after, t = before +:+ s +:+ after.

(** A computation that makes no call on the handle [dev]. *)
Definition quiet_on {A} (dev : nat) (m : M A) : Prop :=
  ∀ w, calls_on dev (trace (m w).2) = calls_on dev (trace w).

(** The world after the snapshot of one adapter to the path [P]: the call
    launched, or the refusal logged. *)
Definition snapshot_effect (is_allowed_path : string → bool)
    (dev : nat) (P : string) (w : World) : World :=
  if is_allowed_path P
  then launched dev (SDK.get_livestream_image P) w
  else logged (no_access P) w.

(** * Properties *)

Section Properties.

Context (ATTR_ENTITY_ID ATTR_ATTRIBUTION ATTR_BATTERY_CHARGING
         ATTR_BATTERY_LEVEL STATE_ON STATE_OFF ATTRIBUTION : string).
Context (sdk : World → nat → SDK.Call → Result pyval * SDK.Device).
Context (host : World → Host.Call → Result pyval).
Context (is_allowed_path : string → bool).
Context (async_render : Template → option string → Result string).

(** *** The monad *)

(** Expose the state passing under the monadic notation. *)
Ltac unfold_M := unfold when, lift, raise, mbind, M_bind, mret, M_ret.

Lemma bind_Return {A B} (m : M A) (k : A → M B) w a w' :
  m w = (Return a, w') → (m ≫= k) w = k a w'.
Proof. intros H. unfold mbind, M_bind. by rewrite H. Qed.

Lemma bind_Raise {A B} (m : M A) (k : A → M B) w e w' :
  m w = (Raise e, w') → (m ≫= k) w = (Raise e, w').
Proof. intros H. unfold mbind, M_bind. by rewrite H. Qed.

Lemma bind_unit_ret (m : M unit) w : (m ;; mret tt) w = m w.
Proof. unfold_M. destruct (m w) as [[[]|e] w']; reflexivity. Qed.

Lemma await_sdk_run dev c w :
  await_sdk sdk dev c w = ((sdk w dev c).1, awaited sdk dev c w).
Proof. unfold await_sdk, awaited. by destruct (sdk w dev c). Qed.

Lemma await_sdk_discard dev c w :
  (await_sdk sdk dev c ;; mret tt) w
  = (discard (sdk w dev c).1, awaited sdk dev c w).
Proof.
  unfold mbind, M_bind. rewrite await_sdk_run.
  by destruct ((sdk w dev c).1).
Qed.

Lemma eq_str_true s v : eq_str s v = true ↔ v = VStr s.
Proof.
  destruct v; simpl; try (split; [discriminate | congruence]).
  rewrite String.eqb_eq. split; congruence.
Qed.

Lemma eq_str_false s v : v ≠ VStr s → eq_str s v = false.
Proof.
  intros H. destruct (eq_str s v) eqn:E; [|done].
  by apply eq_str_true in E.
Qed.

(** *** The adapter *)

(** C7.  Turning the camera on awaits the streaming-mode setter with
    [True], turning it off awaits it with [False].  That one call is all
    either operation does: its outcome is the outcome of the operation,
    the trace grows by that call alone, nothing is logged, and the adapter
    object keeps no result of it. *)
Theorem turn_on_off_delegate (self : LogiCam) (w : World) :
  let on := SDK.set_streaming_mode (VBool true) in
  let off := SDK.set_streaming_mode (VBool false) in
  async_turn_on sdk self w
    = (discard (sdk w (_camera self) on).1, awaited sdk (_camera self) on w)
  ∧ async_turn_off sdk self w
    = (discard (sdk w (_camera self) off).1, awaited sdk (_camera self) off w)
  ∧ trace (async_turn_on sdk self w).2 = trace w ++ [Await (_camera self) on]
  ∧ trace (async_turn_off sdk self w).2 = trace w ++ [Await (_camera self) off]
  ∧ log (async_turn_on sdk self w).2 = log w
  ∧ log (async_turn_off sdk self w).2 = log w.
Proof.
  intros on off. unfold async_turn_on, async_turn_off.
  rewrite !await_sdk_discard. by repeat split.
Qed.

(** C8.  Reading the image awaits the snapshot fetch of the Device Handle,
    once: what the fetch returns is returned as it is, and an exception of
    the fetch is raised to the caller. *)
Theorem camera_image_is_snapshot (self : LogiCam) (w : World) :
  let fetch := sdk w (_camera self) SDK.get_snapshot_image in
  (async_camera_image sdk self w).1 = fetch.1
  ∧ (∀ image, fetch.1 = Return image →
       (async_camera_image sdk self w).1 = Return image)
  ∧ (∀ e, fetch.1 = Raise e → (async_camera_image sdk self w).1 = Raise e)
  ∧ trace (async_camera_image sdk self w).2
    = trace w ++ [Await (_camera self) SDK.get_snapshot_image].
Proof.
  intros fetch. unfold async_camera_image. rewrite await_sdk_run.
  subst fetch. simpl. repeat split; auto.
Qed.

(** C2.  With the mode [LED], [PRIVACY_MODE] or [BATTERY_SAVING],
    [set_config] awaits the setter of that mode with the given value, and
    that call is the only one; with any other mode it returns at once,
    leaving the world as it was. *)
Theorem set_config_selects_setter (self : LogiCam) (value : pyval) (w : World) :
  let dev := _camera self in
  set_config sdk self (VStr LED_MODE_KEY) value w
    = (discard (sdk w dev (SDK.set_led value)).1,
       awaited sdk dev (SDK.set_led value) w)
  ∧ set_config sdk self (VStr PRIVACY_MODE_KEY) value w
    = (discard (sdk w dev (SDK.set_privacy_mode value)).1,
       awaited sdk dev (SDK.set_privacy_mode value) w)
  ∧ set_config sdk self (VStr BATTERY_SAVING_MODE_KEY) value w
    = (discard (sdk w dev (SDK.set_battery_saving_mode value)).1,
       awaited sdk dev (SDK.set_battery_saving_mode value) w)
  ∧ ∀ mode,
      mode ≠ VStr LED_MODE_KEY →
      mode ≠ VStr PRIVACY_MODE_KEY →
      mode ≠ VStr BATTERY_SAVING_MODE_KEY →
      set_config sdk self mode value w = (Return tt, w).
Proof.
  intros dev. subst dev. unfold set_config. repeat split.
  1-3: simpl; unfold_M; rewrite await_sdk_run; unfold discard;
       match goal with
       | |- context [sdk ?w0 ?d ?c] => destruct (sdk w0 d c) as [[] ?]; reflexivity
       end.
  intros mode H1 H2 H3.
  rewrite (eq_str_false _ _ H1), (eq_str_false _ _ H2), (eq_str_false _ _ H3).
  reflexivity.
Qed.

(** *** The path whitelist *)

Lemma timedelta_in_range (secs : Z) :
  -86399999913600 ≤ secs ≤ 86399999999999 →
  ∃ td, timedelta (VInt secs) = Return td ∧ total_seconds td = secs.
Proof.
  intros Hrange. simpl. unfold timedelta_of_seconds.
  pose proof (Z.div_mod secs 86400 ltac:(lia)) as Hdm.
  pose proof (Z.mod_pos_bound secs 86400 ltac:(lia)) as Hmod.
  rewrite bool_decide_eq_true_2 by lia.
  eexists. split; [reflexivity|]. unfold total_seconds. simpl. lia.
Qed.

Lemma snapshot_run (self : LogiCam) tpl P w :
  async_render tpl (entity_id self) = Return P →
  livestream_snapshot is_allowed_path async_render self (VTemplate tpl) w
  = (Return tt,
     if is_allowed_path P
     then launched (_camera self) (SDK.get_livestream_image P) w
     else logged (no_access P) w).
Proof.
  intros Hrender. unfold livestream_snapshot, set_hass. unfold_M.
  rewrite Hrender. by destruct (is_allowed_path P).
Qed.

Lemma record_run (self : LogiCam) tpl P duration w :
  async_render tpl (entity_id self) = Return P →
  download_livestream is_allowed_path async_render self (VTemplate tpl) duration w
  = if is_allowed_path P then
      match timedelta duration with
      | Return td =>
          (Return tt, launched (_camera self) (SDK.record_livestream P td) w)
      | Raise e => (Raise e, w)
      end
    else (Return tt, logged (no_access P) w).
Proof.
  intros Hrender. unfold download_livestream, set_hass. unfold_M.
  rewrite Hrender.
  destruct (is_allowed_path P); simpl; [|done].
  by destruct (timedelta duration).
Qed.

(** C1, amended.  Let the file name render to the path [P].  If the
    whitelist rejects [P], a snapshot or a recording makes no call on the
    Device Handle, logs one error and returns normally.  If the whitelist
    accepts [P], a snapshot launches exactly one [get_livestream_image]
    call with [P]; a recording whose duration is a number of seconds that
    a time span can hold launches exactly one [record_livestream] call
    with [P] and a time span of that many seconds. *)
Theorem whitelist_gates_file_operations
    (self : LogiCam) (tpl : Template) (P : string) (duration : pyval)
    (w : World) :
  async_render tpl (entity_id self) = Return P →
  (is_allowed_path P = false →
     livestream_snapshot is_allowed_path async_render self (VTemplate tpl) w
       = (Return tt, logged (no_access P) w)
     ∧ download_livestream is_allowed_path async_render self (VTemplate tpl)
         duration w
       = (Return tt, logged (no_access P) w))
  ∧ (is_allowed_path P = true →
     livestream_snapshot is_allowed_path async_render self (VTemplate tpl) w
       = (Return tt,
          launched (_camera self) (SDK.get_livestream_image P) w)
     ∧ ∀ secs,
         duration = VInt secs →
         -86399999913600 ≤ secs ≤ 86399999999999 →
         ∃ td, total_seconds td = secs
           ∧ download_livestream is_allowed_path async_render self
               (VTemplate tpl) duration w
             = (Return tt,
                launched (_camera self) (SDK.record_livestream P td) w)).
Proof.
  intros Hrender. split; intros Hallowed.
  - rewrite (snapshot_run _ _ _ _ Hrender), (record_run _ _ _ _ _ Hrender).
    by rewrite Hallowed.
  - rewrite (snapshot_run _ _ _ _ Hrender), Hallowed. split; [done|].
    intros secs -> Hrange.
    destruct (timedelta_in_range secs Hrange) as (td & Htd & Htotal).
    exists td. split; [done|].
    by rewrite (record_run _ _ _ _ _ Hrender), Hallowed, Htd.
Qed.

(** *** State attributes *)

(** C6.  The adapter is made by [__init__] at some time and read at any
    later time.  The attributes read hold the attribution string, the
    battery-saving mode as on or off, the IP address and the microphone
    gain; the charging state and the battery level are among them exactly
    when the Device Handle reported the battery feature to [__init__].
    Every value is that of the Device Handle in the world of the read:
    nothing about an earlier world enters the result. *)
Theorem state_attributes_are_live
    (camera : nat) (device_info : gmap string pyval) (ffmpeg : FFmpegManager)
    (id : string) (w_init w : World) :
  NoDup [ATTR_ATTRIBUTION; "battery_saving_mode"; "ip_address";
         "microphone_gain"; ATTR_BATTERY_CHARGING; ATTR_BATTERY_LEVEL] →
  let self := register id (__init__ camera device_info ffmpeg w_init) in
  let now := handles w camera in
  let attrs :=
    device_state_attributes ATTR_ATTRIBUTION ATTR_BATTERY_CHARGING
      ATTR_BATTERY_LEVEL STATE_ON STATE_OFF ATTRIBUTION self w in
  attrs !! ATTR_ATTRIBUTION = Some (VStr ATTRIBUTION)
  ∧ attrs !! "battery_saving_mode"
    = Some (VStr (if truthy (SDK.battery_saving now)
                  then STATE_ON else STATE_OFF))
  ∧ attrs !! "ip_address" = Some (SDK.ip_address now)
  ∧ attrs !! "microphone_gain" = Some (SDK.microphone_gain now)
  ∧ (if SDK.supports_feature (handles w_init camera) "battery_level"
     then attrs !! ATTR_BATTERY_CHARGING = Some (SDK.is_charging now)
          ∧ attrs !! ATTR_BATTERY_LEVEL = Some (SDK.battery_level now)
     else attrs !! ATTR_BATTERY_CHARGING = None
          ∧ attrs !! ATTR_BATTERY_LEVEL = None).
Proof.
  intros Hkeys self now attrs. subst self now attrs.
  unfold device_state_attributes, register, __init__. simpl.
  rewrite !list.NoDup_cons, !not_elem_of_cons in Hkeys. destruct_and!.
  destruct (SDK.supports_feature (handles w_init camera) "battery_level");
    repeat split.
  all: repeat (rewrite lookup_insert_ne by (congruence || done)).
  all: by rewrite ?lookup_insert_eq, ?lookup_empty.
Qed.

(** *** The live-stream proxy *)

Lemma proxy_stream_trace (self : LogiCam) request w :
  ∃ evs, trace (proxy_stream host self request w).2 = trace w ++ evs
         ∧ HostCall Host.close ∉ evs.
Proof.
  unfold proxy_stream, await_host, mbind, M_bind.
  destruct (host w Host.get_reader) as [reader|e]; simpl.
  - eexists [_; _]. rewrite <- app_assoc. split; [reflexivity|].
    rewrite !not_elem_of_cons. repeat split; try discriminate.
    apply not_elem_of_nil.
  - eexists [_]. split; [reflexivity|].
    rewrite !not_elem_of_cons. repeat split; try discriminate.
    apply not_elem_of_nil.
Qed.

Lemma stream_run (self : LogiCam) request w w_open :
  open_stream sdk host self w = (Return tt, w_open) →
  handle_async_mjpeg_stream sdk host self request w
  = (match host (proxy_stream host self request w_open).2 Host.close with
     | Return _ => (proxy_stream host self request w_open).1
     | Raise e =>
         if bool_decide (e = BrokenPipeError) then Return VNone else Raise e
     end,
     host_called Host.close (proxy_stream host self request w_open).2).
Proof.
  intros Hopen. unfold handle_async_mjpeg_stream.
  rewrite (bind_Return _ _ _ _ _ Hopen).
  unfold try_finally, close_stream, try_except.
  destruct (proxy_stream host self request w_open) as [r w_copy]. simpl.
  unfold await_host, host_called. unfold_M.
  destruct (host w_copy Host.close) as [v|e]; [done|].
  by destruct (bool_decide (e = BrokenPipeError)).
Qed.

(** C5.  Once the transcoding process is open, the handler closes it on
    every path: whatever the outcome of the byte copy, the close is the
    last call made, and it is made once.  If the close raises
    [BrokenPipeError], the handler returns normally; if it raises anything
    else, the handler raises that; if it succeeds, the outcome of the
    copy stands. *)
Theorem stream_closed_on_every_path
    (self : LogiCam) (request : pyval) (w w_open : World) :
  open_stream sdk host self w = (Return tt, w_open) →
  let copy := proxy_stream host self request w_open in
  let closing := host copy.2 Host.close in
  let run := handle_async_mjpeg_stream sdk host self request w in
  run.2 = host_called Host.close copy.2
  ∧ (∃ evs, trace run.2 = trace w_open ++ evs ++ [HostCall Host.close]
            ∧ HostCall Host.close ∉ evs)
  ∧ (closing = Raise BrokenPipeError → run.1 = Return VNone)
  ∧ (∀ e, closing = Raise e → e ≠ BrokenPipeError → run.1 = Raise e)
  ∧ (∀ v, closing = Return v → run.1 = copy.1).
Proof.
  intros Hopen copy closing run. subst run closing copy.
  rewrite (stream_run _ _ _ _ Hopen). simpl. repeat split.
  - destruct (proxy_stream_trace self request w_open) as (evs & Hevs & Hnot).
    exists evs. rewrite Hevs. by rewrite <- app_assoc.
  - by intros ->.
  - intros e -> Hne. by rewrite bool_decide_eq_false_2.
  - by intros v ->.
Qed.

(** C10.  If the byte copy raises and the close that follows raises
    [BrokenPipeError], the handler returns [None]: the exception of the
    copy is dropped with that of the close, and the caller sees neither. *)
Theorem broken_pipe_discards_copy_error
    (self : LogiCam) (request : pyval) (w w_open w_copy : World)
    (e_copy : exn) :
  open_stream sdk host self w = (Return tt, w_open) →
  proxy_stream host self request w_open = (Raise e_copy, w_copy) →
  host w_copy Host.close = Raise BrokenPipeError →
  handle_async_mjpeg_stream sdk host self request w
  = (Return VNone, host_called Host.close w_copy).
Proof.
  intros Hopen Hcopy Hclose.
  rewrite (stream_run _ _ _ _ Hopen), Hcopy. simpl. by rewrite Hclose.
Qed.

(** *** The dispatcher *)

Lemma for_each_ext {A} (xs : list A) (f g : A → M unit) w :
  (∀ x w', f x w' = g x w') → for_each xs f w = for_each xs g w.
Proof.
  intros Hfg. revert w. induction xs as [|x xs IH]; intros w; [done|].
  simpl. unfold mbind, M_bind. rewrite Hfg.
  destruct (g x w) as [[[]|e] w']; [apply IH | done].
Qed.

Lemma for_each_app {A} (xs ys : list A) (f : A → M unit) w :
  for_each (xs ++ ys) f w
  = match for_each xs f w with
    | (Return _, w1) => for_each ys f w1
    | (Raise e, w1) => (Raise e, w1)
    end.
Proof.
  revert w. induction xs as [|x xs IH]; intros w; [done|].
  simpl. unfold mbind, M_bind.
  destruct (f x w) as [[[]|e] w']; [apply IH | done].
Qed.

(** The comprehension over the service data drops the identifier set and
    nothing else. *)
Lemma params_without_entity_id (d : gmap string pyval) :
  filter (λ kv, kv.1 ≠ ATTR_ENTITY_ID) d = delete ATTR_ENTITY_ID d.
Proof.
  apply map_eq. intros k. apply option_eq. intros v.
  rewrite map_lookup_filter_Some, lookup_delete_Some. simpl.
  intuition congruence.
Qed.

Lemma eqb_bool_decide (a b : string) : String.eqb a b = bool_decide (a = b).
Proof.
  destruct (String.eqb_spec a b).
  - by rewrite bool_decide_eq_true_2.
  - by rewrite bool_decide_eq_false_2.
Qed.

(** The three tests of the loop body pick the operation of the command. *)
Lemma dispatch_operation (call : ServiceCall) params (target : LogiCam) w :
  dispatch sdk is_allowed_path async_render call params target w
  = operation sdk is_allowed_path async_render (service call) target params w.
Proof.
  unfold dispatch, operation. rewrite !eqb_bool_decide.
  destruct (decide (service call = SERVICE_SET_CONFIG)) as [E|N1].
  { rewrite E. simpl. unfold_M.
    by destruct (call_kw2 _ _ _ _ _) as [[[]|?] ?]. }
  rewrite (bool_decide_eq_false_2 _ N1).
  destruct (decide (service call = SERVICE_LIVESTREAM_SNAPSHOT)) as [E|N2].
  { rewrite E. simpl. unfold_M.
    by destruct (call_kw1 _ _ _ _) as [[[]|?] ?]. }
  rewrite (bool_decide_eq_false_2 _ N2).
  destruct (decide (service call = SERVICE_LIVESTREAM_RECORD)) as [E|N3].
  { rewrite E. simpl. unfold_M.
    by destruct (call_kw2 _ _ _ _ _) as [[[]|?] ?]. }
  by rewrite (bool_decide_eq_false_2 _ N3).
Qed.

Lemma service_handler_run cameras (call : ServiceCall) targets w :
  target_devices ATTR_ENTITY_ID cameras call = Return targets →
  service_handler ATTR_ENTITY_ID sdk is_allowed_path async_render cameras call w
  = for_each targets
      (λ adapter, operation sdk is_allowed_path async_render (service call)
                    adapter (delete ATTR_ENTITY_ID (data call))) w.
Proof.
  intros Htargets. unfold service_handler, lift.
  unfold mbind at 1, M_bind at 1. rewrite Htargets.
  rewrite params_without_entity_id.
  apply for_each_ext. intros. apply dispatch_operation.
Qed.

Lemma existsb_eq_id (x : option string) (ids : list string) :
  existsb (eq_id x) (VStr <$> ids) = bool_decide (x ∈ Some <$> ids).
Proof.
  destruct (existsb (eq_id x) (VStr <$> ids)) eqn:E; symmetry.
  - apply bool_decide_eq_true_2.
    apply existsb_exists in E as (v & Hv & Heq).
    apply list_elem_of_In, list_elem_of_fmap in Hv as (i & -> & Hi).
    destruct x as [s|]; [|done]. simpl in Heq.
    apply String.eqb_eq in Heq as ->. by apply list_elem_of_fmap_2.
  - apply bool_decide_eq_false_2. intros Hin.
    apply list_elem_of_fmap in Hin as (i & -> & Hi).
    assert (existsb (eq_id (Some i)) (VStr <$> ids) = true) as Htrue; [|congruence].
    apply existsb_exists. exists (VStr i). split.
    + by apply list_elem_of_In, list_elem_of_fmap_2.
    + simpl. apply String.eqb_refl.
Qed.

Lemma list_comp_ids (cameras : list LogiCam) (ids : list string) :
  list_comp cameras (λ dev, py_in (entity_id dev) (VList (VStr <$> ids)))
  = Return (filter (λ dev, entity_id dev ∈ Some <$> ids) cameras).
Proof.
  induction cameras as [|dev cameras IH]; [done|].
  cbn [list_comp]. rewrite IH. cbn [py_in].
  rewrite existsb_eq_id, filter_cons.
  destruct (decide (entity_id dev ∈ Some <$> ids)).
  - by rewrite bool_decide_eq_true_2.
  - by rewrite bool_decide_eq_false_2.
Qed.

Lemma target_devices_explicit cameras (call : ServiceCall) ids :
  data call !! ATTR_ENTITY_ID = Some (VList (VStr <$> ids)) →
  ids ≠ [] →
  target_devices ATTR_ENTITY_ID cameras call
  = Return (selected cameras (Some ids)).
Proof.
  intros Hids Hne. unfold target_devices, dict_get. rewrite Hids. simpl.
  destruct ids; [done|]. simpl. apply (list_comp_ids cameras (_ :: _)).
Qed.

Lemma target_devices_falsy cameras (call : ServiceCall) :
  truthy (dict_get (data call) ATTR_ENTITY_ID) = false →
  target_devices ATTR_ENTITY_ID cameras call = Return cameras.
Proof. intros H. unfold target_devices. by rewrite H. Qed.

(** C3, amended.  When the command carries a non-empty list of target
    identifiers, the handler invokes the operation of the command, in
    turn, on the known adapters whose identifier is in the list and on no
    others; when it carries no target list, on every known adapter.  In
    both cases the operation receives every parameter of the command but
    the identifier list.  (The adapters are served in the order of the
    list of known adapters, each after the operation on the one before it
    has returned.) *)
Theorem dispatch_selects_targets
    (cameras : list LogiCam) (call : ServiceCall) (w : World) :
  let handler :=
    service_handler ATTR_ENTITY_ID sdk is_allowed_path async_render in
  let spec :=
    spec_dispatch sdk is_allowed_path async_render cameras (service call)
      (delete ATTR_ENTITY_ID (data call)) in
  (∀ ids, data call !! ATTR_ENTITY_ID = Some (VList (VStr <$> ids)) →
          ids ≠ [] →
          handler cameras call w = spec (Some ids) w)
  ∧ (data call !! ATTR_ENTITY_ID = None →
     handler cameras call w = spec None w).
Proof.
  intros handler spec. subst handler spec. unfold spec_dispatch. split.
  - intros ids Hids Hne. apply service_handler_run.
    by apply target_devices_explicit.
  - intros Hnone. apply service_handler_run.
    apply target_devices_falsy. unfold dict_get. by rewrite Hnone.
Qed.

Lemma for_each_in_turn {A} (xs : list A) (body : A → M unit) w :
  for_each xs body w = in_turn xs body w.
Proof.
  revert w. induction xs as [|x xs IH]; intros w; [done|].
  simpl. unfold mbind, M_bind.
  destruct (body x w) as [[[]|e] w']; [apply IH | done].
Qed.

Lemma operation_set_config (adapter : LogiCam) mode value w :
  operation sdk is_allowed_path async_render SERVICE_SET_CONFIG adapter
    {["mode" := mode; "value" := value]} w
  = set_config sdk adapter mode value w.
Proof.
  unfold operation. simpl. unfold call_kw2.
  rewrite lookup_insert_eq, lookup_insert_ne, lookup_singleton_eq by done.
  by rewrite map_size_insert_None, map_size_singleton
    by (by rewrite lookup_singleton_ne).
Qed.

Lemma operation_livestream_snapshot (adapter : LogiCam) filename w :
  operation sdk is_allowed_path async_render SERVICE_LIVESTREAM_SNAPSHOT
    adapter {["filename" := filename]} w
  = livestream_snapshot is_allowed_path async_render adapter filename w.
Proof.
  unfold operation. simpl. unfold call_kw1.
  by rewrite lookup_singleton_eq, map_size_singleton.
Qed.

Lemma operation_download_livestream (adapter : LogiCam) filename duration w :
  operation sdk is_allowed_path async_render SERVICE_LIVESTREAM_RECORD
    adapter {["filename" := filename; "duration" := duration]} w
  = download_livestream is_allowed_path async_render adapter filename
      duration w.
Proof.
  unfold operation. simpl. unfold call_kw2.
  rewrite lookup_insert_eq, lookup_insert_ne, lookup_singleton_eq by done.
  by rewrite map_size_insert_None, map_size_singleton
    by (by rewrite lookup_singleton_ne).
Qed.

Lemma in_turn_ext {A} (xs : list A) (f g : A → World → Result unit * World) w :
  (∀ x w', f x w' = g x w') → in_turn xs f w = in_turn xs g w.
Proof.
  intros Hfg. revert w. induction xs as [|x xs IH]; intros w; [done|].
  simpl. rewrite Hfg. destruct (g x w) as [[[]|e] w']; [apply IH | done].
Qed.

Lemma in_turn_set_led (adapters : list LogiCam) value w :
  (∀ w' dev, ∃ r, (sdk w' dev (SDK.set_led value)).1 = Return r) →
  (in_turn adapters
     (λ adapter, set_config sdk adapter (VStr LED_MODE_KEY) value) w).1
  = Return tt
  ∧ trace (in_turn adapters
             (λ adapter, set_config sdk adapter (VStr LED_MODE_KEY) value) w).2
    = trace w
      ++ ((λ adapter, Await (_camera adapter) (SDK.set_led value)) <$> adapters).
Proof.
  intros Hreach. revert w. induction adapters as [|adapter adapters IH];
    intros w.
  { simpl. by rewrite app_nil_r. }
  simpl.
  assert (set_config sdk adapter (VStr LED_MODE_KEY) value w
          = (Return tt, awaited sdk (_camera adapter) (SDK.set_led value) w))
    as ->.
  { unfold set_config. simpl. unfold_M. rewrite await_sdk_run.
    destruct (Hreach w (_camera adapter)) as [r Hr]. by rewrite Hr. }
  destruct (IH (awaited sdk (_camera adapter) (SDK.set_led value) w))
    as [-> ->].
  split; [done|]. simpl. by rewrite <- app_assoc.
Qed.

(** C9.  A command that carries an empty list of target identifiers is
    handled exactly as the same command without a target list: the
    operation is invoked on every known adapter.  Spelled out for each of
    the three commands, the run is the method of the command on each known
    adapter, one after the other, with the parameters of the command; for a
    command that sets the LED and an SDK that answers, the trace grows by
    one [set_led] call for every known adapter. *)
Theorem empty_target_list_means_all
    (cameras : list LogiCam) (name : string) (d : gmap string pyval)
    (w : World) :
  let handler :=
    service_handler ATTR_ENTITY_ID sdk is_allowed_path async_render in
  let explicit_empty :=
    {| service := name; data := <[ATTR_ENTITY_ID := VList []]> d |} in
  let absent := {| service := name; data := delete ATTR_ENTITY_ID d |} in
  handler cameras explicit_empty w = handler cameras absent w
  ∧ handler cameras explicit_empty w
    = spec_dispatch sdk is_allowed_path async_render cameras name
        (delete ATTR_ENTITY_ID d) None w
  ∧ (∀ mode value,
       name = SERVICE_SET_CONFIG →
       delete ATTR_ENTITY_ID d = {["mode" := mode; "value" := value]} →
       handler cameras explicit_empty w
       = in_turn cameras
           (λ adapter, set_config sdk adapter mode value) w)
  ∧ (∀ filename,
       name = SERVICE_LIVESTREAM_SNAPSHOT →
       delete ATTR_ENTITY_ID d = {["filename" := filename]} →
       handler cameras explicit_empty w
       = in_turn cameras
           (λ adapter, livestream_snapshot is_allowed_path async_render
                         adapter filename) w)
  ∧ (∀ filename duration,
       name = SERVICE_LIVESTREAM_RECORD →
       delete ATTR_ENTITY_ID d
         = {["filename" := filename; "duration" := duration]} →
       handler cameras explicit_empty w
       = in_turn cameras
           (λ adapter, download_livestream is_allowed_path async_render
                         adapter filename duration) w)
  ∧ (∀ value,
       name = SERVICE_SET_CONFIG →
       delete ATTR_ENTITY_ID d
         = {["mode" := VStr LED_MODE_KEY; "value" := value]} →
       (∀ w' dev, ∃ r, (sdk w' dev (SDK.set_led value)).1 = Return r) →
       (handler cameras explicit_empty w).1 = Return tt
       ∧ trace (handler cameras explicit_empty w).2
         = trace w
           ++ ((λ adapter, Await (_camera adapter) (SDK.set_led value))
                 <$> cameras)).
Proof.
  intros handler explicit_empty absent. subst handler explicit_empty absent.
  unfold spec_dispatch. simpl.
  assert (∀ call, truthy (dict_get (data call) ATTR_ENTITY_ID) = false →
            service_handler ATTR_ENTITY_ID sdk is_allowed_path async_render
              cameras call w
            = for_each cameras
                (λ adapter, operation sdk is_allowed_path async_render
                   (service call) adapter
                   (delete ATTR_ENTITY_ID (data call))) w) as Hall.
  { intros call H. apply service_handler_run. by apply target_devices_falsy. }
  assert (truthy (dict_get (<[ATTR_ENTITY_ID := VList []]> d) ATTR_ENTITY_ID)
          = false) as Hempty.
  { unfold dict_get. by rewrite lookup_insert_eq. }
  rewrite (Hall {| service := name;
                   data := <[ATTR_ENTITY_ID := VList []]> d |} Hempty).
  simpl. rewrite delete_insert_eq.
  split; [|split; [done|]].
  { rewrite Hall; simpl.
    - by rewrite delete_delete_eq.
    - unfold dict_get. by rewrite lookup_delete_eq. }
  rewrite for_each_in_turn. split; [|split; [|split]].
  - intros mode value -> ->. apply in_turn_ext.
    intros. apply operation_set_config.
  - intros filename -> ->. apply in_turn_ext.
    intros. apply operation_livestream_snapshot.
  - intros filename duration -> ->. apply in_turn_ext.
    intros. apply operation_download_livestream.
  - intros value -> -> Hreach.
    rewrite (in_turn_ext _ _
               (λ adapter, set_config sdk adapter (VStr LED_MODE_KEY) value))
      by (intros; apply operation_set_config).
    by apply in_turn_set_led.
Qed.

(** C4, amended.  Dispatch goes from one target to the next exactly when
    the operation on the current target returns normally.  If the
    operation on a target raises, the exception leaves the handler at
    once, with the world as that operation left it: no later target is
    invoked. *)
Theorem dispatch_stops_at_first_failure
    (cameras before after : list LogiCam) (target : LogiCam)
    (call : ServiceCall) (w w1 : World) :
  target_devices ATTR_ENTITY_ID cameras call
    = Return (before ++ target :: after) →
  for_each before
    (invoke ATTR_ENTITY_ID sdk is_allowed_path async_render call) w
    = (Return tt, w1) →
  service_handler ATTR_ENTITY_ID sdk is_allowed_path async_render
    cameras call w
  = match invoke ATTR_ENTITY_ID sdk is_allowed_path async_render call
            target w1 with
    | (Return _, w2) =>
        for_each after
          (invoke ATTR_ENTITY_ID sdk is_allowed_path async_render call) w2
    | (Raise e, w2) => (Raise e, w2)
    end.
Proof.
  intros Htargets Hbefore.
  rewrite (service_handler_run _ _ _ _ Htargets).
  change (λ adapter, operation sdk is_allowed_path async_render
                       (service call) adapter
                       (delete ATTR_ENTITY_ID (data call)))
    with (invoke ATTR_ENTITY_ID sdk is_allowed_path async_render call).
  rewrite for_each_app, Hbefore. simpl. unfold mbind, M_bind.
  by destruct (invoke _ _ _ _ _ target w1) as [[[]|e] w2].
Qed.

End Properties.

(** * The properties on the concrete installation *)

Section Installation.

Import Scenario.

Example cameras_of_the_installation : cameras = [cam1; cam2; cam3].
Proof. reflexivity. Qed.

(** The scenarios of the specification. *)
Example led_on_reaches_cam1_only :
  trace (handler sdk_ok (targeting (VList [VStr "camera.cam1"]) set_led_on)).2
  = [Await 0 led_on].
Proof. reflexivity. Qed.

Example forbidden_snapshot_is_logged :
  handler sdk_ok
    (targeting (VList [VStr "camera.cam1"]) (snapshot "/forbidden/out.jpg"))
  = (Return tt, logged "Can't write /forbidden/out.jpg, no access to path!" w0).
Proof. reflexivity. Qed.

Example allowed_recording_is_launched :
  handler sdk_ok
    (targeting (VList [VStr "camera.cam1"]) (record "/allowed/out.mp4" 30))
  = (Return tt,
     launched 0 (SDK.record_livestream "/allowed/out.mp4"
                   {| days := 0; seconds := 30 |}) w0).
Proof. reflexivity. Qed.

(** A target given as one string, not a list, is searched for the
    identifier of each camera as a substring. *)
Example all_is_read_as_a_string :
  trace (handler sdk_ok (targeting (VStr "all") set_led_on)).2 = [].
Proof. reflexivity. Qed.

Lemma set_config_selects_setter_witness :
  set_config sdk_ok cam1 (VStr "NIGHT_VISION") (VBool true) w0
  = (Return tt, w0).
Proof.
  apply (set_config_selects_setter sdk_ok cam1 (VBool true) w0);
    discriminate.
Defined.

Lemma camera_image_is_snapshot_witness :
  (async_camera_image sdk_ok cam1 w0).1 = Return (VBytes [Byte.xff; Byte.xd8])
  ∧ (async_camera_image (sdk_offline 0) cam1 w0).1 = Raise ClientError.
Proof.
  pose proof (camera_image_is_snapshot sdk_ok cam1 w0)
    as (_ & Hreturned & _ & _).
  pose proof (camera_image_is_snapshot (sdk_offline 0) cam1 w0)
    as (_ & _ & Hraised & _).
  split; [apply Hreturned | apply Hraised]; reflexivity.
Defined.

Lemma whitelist_gates_file_operations_witness :
  livestream_snapshot is_allowed_path async_render cam1
    (VTemplate {| template := "/forbidden/out.jpg" |}) w0
  = (Return tt, logged (no_access "/forbidden/out.jpg") w0)
  ∧ ∃ td, total_seconds td = 30
      ∧ download_livestream is_allowed_path async_render cam1
          (VTemplate {| template := "/allowed/out.mp4" |}) (VInt 30) w0
        = (Return tt,
           launched 0 (SDK.record_livestream "/allowed/out.mp4" td) w0).
Proof.
  split.
  - destruct (whitelist_gates_file_operations is_allowed_path async_render
                cam1 {| template := "/forbidden/out.jpg" |}
                "/forbidden/out.jpg" (VInt 30) w0 eq_refl) as [Hrejected _].
    apply Hrejected. reflexivity.
  - destruct (whitelist_gates_file_operations is_allowed_path async_render
                cam1 {| template := "/allowed/out.mp4" |}
                "/allowed/out.mp4" (VInt 30) w0 eq_refl) as [_ Haccepted].
    destruct (Haccepted eq_refl) as [_ Hrecord].
    apply (Hrecord 30); [reflexivity | lia].
Defined.

(** C1 as stated fails on a duration that no time span can hold: the
    path renders and is on the whitelist, yet the recording raises
    [OverflowError] and no call reaches the Device Handle. *)
Lemma record_duration_out_of_range :
  async_render {| template := "/allowed/out.mp4" |} (entity_id cam1)
    = Return "/allowed/out.mp4"
  ∧ is_allowed_path "/allowed/out.mp4" = true
  ∧ download_livestream is_allowed_path async_render cam1
      (VTemplate {| template := "/allowed/out.mp4" |})
      (VInt 100000000000000) w0
    = (Raise OverflowError, w0)
  ∧ ¬ ∃ td,
        download_livestream is_allowed_path async_render cam1
          (VTemplate {| template := "/allowed/out.mp4" |})
          (VInt 100000000000000) w0
        = (Return tt,
           launched 0 (SDK.record_livestream "/allowed/out.mp4" td) w0).
Proof.
  split; [reflexivity|]. split; [reflexivity|]. split; [reflexivity|].
  intros [td Htd]. vm_compute in Htd. discriminate Htd.
Qed.

Lemma state_attributes_are_live_witness :
  device_state_attributes ATTR_ATTRIBUTION ATTR_BATTERY_CHARGING
    ATTR_BATTERY_LEVEL STATE_ON STATE_OFF ATTRIBUTION cam1 w0
    !! "battery_level" = Some (VInt 55)
  ∧ device_state_attributes ATTR_ATTRIBUTION ATTR_BATTERY_CHARGING
      ATTR_BATTERY_LEVEL STATE_ON STATE_OFF ATTRIBUTION cam2 w0
      !! "battery_level" = None
  ∧ device_state_attributes ATTR_ATTRIBUTION ATTR_BATTERY_CHARGING
      ATTR_BATTERY_LEVEL STATE_ON STATE_OFF ATTRIBUTION cam2 w0
      !! "battery_saving_mode" = Some (VStr "off").
Proof.
  assert (NoDup [ATTR_ATTRIBUTION; "battery_saving_mode"; "ip_address";
                 "microphone_gain"; ATTR_BATTERY_CHARGING;
                 ATTR_BATTERY_LEVEL]) as Hkeys.
  { apply (bool_decide_unpack _). vm_compute. exact I. }
  pose proof (state_attributes_are_live ATTR_ATTRIBUTION
                ATTR_BATTERY_CHARGING ATTR_BATTERY_LEVEL STATE_ON STATE_OFF
                ATTRIBUTION 0%nat ∅ ffmpeg "camera.cam1" w0 w0 Hkeys)
    as (_ & _ & _ & _ & Hbattery1).
  pose proof (state_attributes_are_live ATTR_ATTRIBUTION
                ATTR_BATTERY_CHARGING ATTR_BATTERY_LEVEL STATE_ON STATE_OFF
                ATTRIBUTION 1%nat ∅ ffmpeg "camera.cam2" w0 w0 Hkeys)
    as (_ & Hsaving2 & _ & _ & Hbattery2).
  simpl in Hbattery1, Hbattery2.
  split; [apply Hbattery1 | split; [apply Hbattery2 | apply Hsaving2]].
Defined.

Lemma stream_closed_on_every_path_witness :
  (stream (host_broken_pipe false)).1 = Return VNone
  ∧ (stream host_close_times_out).1 = Raise TimeoutError
  ∧ (stream host_copy_fails).1 = Raise ConnectionResetError.
Proof.
  unfold stream. split; [|split].
  - pose proof (stream_closed_on_every_path sdk_ok (host_broken_pipe false)
                  cam1 (VObject 7) w0
                  (open_stream sdk_ok (host_broken_pipe false) cam1 w0).2
                  eq_refl) as (_ & _ & Hbroken & _ & _).
    apply Hbroken. reflexivity.
  - pose proof (stream_closed_on_every_path sdk_ok host_close_times_out
                  cam1 (VObject 7) w0
                  (open_stream sdk_ok host_close_times_out cam1 w0).2
                  eq_refl) as (_ & _ & _ & Hother & _).
    apply Hother; [reflexivity | discriminate].
  - pose proof (stream_closed_on_every_path sdk_ok host_copy_fails
                  cam1 (VObject 7) w0
                  (open_stream sdk_ok host_copy_fails cam1 w0).2
                  eq_refl) as (_ & _ & _ & _ & Hclosed).
    apply (Hclosed VNone). reflexivity.
Defined.

Lemma broken_pipe_discards_copy_error_witness :
  (proxy_stream (host_broken_pipe true) cam1 (VObject 7)
     (open_stream sdk_ok (host_broken_pipe true) cam1 w0).2).1
  = Raise ConnectionResetError
  ∧ (stream (host_broken_pipe true)).1 = Return VNone.
Proof.
  split; [reflexivity|]. unfold stream.
  rewrite (broken_pipe_discards_copy_error sdk_ok (host_broken_pipe true)
             cam1 (VObject 7) w0
             (open_stream sdk_ok (host_broken_pipe true) cam1 w0).2
             (proxy_stream (host_broken_pipe true) cam1 (VObject 7)
                (open_stream sdk_ok (host_broken_pipe true) cam1 w0).2).2
             ConnectionResetError eq_refl eq_refl eq_refl).
  reflexivity.
Defined.

Lemma dispatch_selects_targets_witness :
  trace (handler sdk_ok (targeting two_of_three set_led_on)).2
  = [Await 0 led_on; Await 2 led_on]
  ∧ trace (handler sdk_ok set_led_on).2
    = [Await 0 led_on; Await 1 led_on; Await 2 led_on].
Proof.
  unfold handler. split.
  - pose proof (dispatch_selects_targets ATTR_ENTITY_ID sdk_ok
                  is_allowed_path async_render cameras
                  (targeting two_of_three set_led_on) w0) as [Hexplicit _].
    rewrite (Hexplicit ["camera.cam1"; "camera.cam3"] eq_refl);
      [reflexivity | discriminate].
  - pose proof (dispatch_selects_targets ATTR_ENTITY_ID sdk_ok
                  is_allowed_path async_render cameras set_led_on w0)
      as [_ Habsent].
    rewrite (Habsent eq_refl). reflexivity.
Defined.

(** C3 as stated fails on an explicit target list that is empty: the
    dispatcher of the specification reaches no adapter, the handler
    reaches all of them. *)
Lemma empty_target_list_reaches_every_camera :
  data (targeting (VList []) set_led_on) !! ATTR_ENTITY_ID
    = Some (VList (VStr <$> []))
  ∧ trace (handler sdk_ok (targeting (VList []) set_led_on)).2
    = [Await 0 led_on; Await 1 led_on; Await 2 led_on]
  ∧ trace (spec_dispatch sdk_ok is_allowed_path async_render cameras
             SERVICE_SET_CONFIG
             (delete ATTR_ENTITY_ID (data (targeting (VList []) set_led_on)))
             (Some []) w0).2
    = []
  ∧ handler sdk_ok (targeting (VList []) set_led_on)
    ≠ spec_dispatch sdk_ok is_allowed_path async_render cameras
        SERVICE_SET_CONFIG
        (delete ATTR_ENTITY_ID (data (targeting (VList []) set_led_on)))
        (Some []) w0.
Proof.
  split; [reflexivity|]. split; [reflexivity|]. split; [reflexivity|].
  intros H. apply (f_equal (λ r, trace r.2)) in H.
  vm_compute in H. discriminate H.
Qed.

Lemma empty_target_list_means_all_witness :
  (handler sdk_ok (targeting (VList []) set_led_on)).1 = Return tt
  ∧ trace (handler sdk_ok (targeting (VList []) set_led_on)).2
    = [Await 0 led_on; Await 1 led_on; Await 2 led_on]
  ∧ handler sdk_ok (targeting (VList []) (snapshot "/allowed/*"))
    = (Return tt,
       launched 2 (SDK.get_livestream_image "/allowed/camera.cam3")
         (launched 1 (SDK.get_livestream_image "/allowed/camera.cam2")
            (launched 0 (SDK.get_livestream_image "/allowed/camera.cam1")
               w0))).
Proof.
  unfold handler.
  pose proof (empty_target_list_means_all ATTR_ENTITY_ID sdk_ok
                is_allowed_path async_render cameras SERVICE_SET_CONFIG
                (data set_led_on) w0) as (_ & _ & _ & _ & _ & Hled).
  pose proof (empty_target_list_means_all ATTR_ENTITY_ID sdk_ok
                is_allowed_path async_render cameras
                SERVICE_LIVESTREAM_SNAPSHOT (data (snapshot "/allowed/*")) w0)
    as (_ & _ & _ & Hsnapshot & _).
  cbv zeta in Hled, Hsnapshot.
  destruct (Hled (VBool true) eq_refl eq_refl) as [Hreturn Htrace].
  { intros w' dev. eexists. reflexivity. }
  split; [exact Hreturn|]. split; [exact Htrace|].
  exact (Hsnapshot (VTemplate {| template := "/allowed/*" |}) eq_refl eq_refl).
Defined.

Lemma dispatch_stops_at_first_failure_witness :
  handler (sdk_offline 1) set_led_on
  = (Raise ClientError,
     awaited (sdk_offline 1) 1 led_on (awaited (sdk_offline 1) 0 led_on w0)).
Proof.
  unfold handler.
  rewrite (dispatch_stops_at_first_failure ATTR_ENTITY_ID (sdk_offline 1)
             is_allowed_path async_render cameras [cam1] [cam3] cam2
             set_led_on w0 (awaited (sdk_offline 1) 0 led_on w0)
             eq_refl eq_refl).
  reflexivity.
Defined.

(** C4 as stated fails when the SDK cannot reach the second of the three
    cameras: the handler raises, and the third camera, which a dispatcher
    that went on regardless would have served, receives no call. *)
Lemma failure_on_one_camera_skips_the_rest :
  (handler (sdk_offline 1) set_led_on).1 = Raise ClientError
  ∧ trace (handler (sdk_offline 1) set_led_on).2
    = [Await 0 led_on; Await 1 led_on]
  ∧ calls_on 2 (trace (handler (sdk_offline 1) set_led_on).2) = []
  ∧ trace (spec_dispatch_regardless (sdk_offline 1) is_allowed_path
             async_render cameras SERVICE_SET_CONFIG
             (delete ATTR_ENTITY_ID (data set_led_on)) None w0).2
    = [Await 0 led_on; Await 1 led_on; Await 2 led_on]
  ∧ trace (handler (sdk_offline 1) set_led_on).2
    ≠ trace (spec_dispatch_regardless (sdk_offline 1) is_allowed_path
               async_render cameras SERVICE_SET_CONFIG
               (delete ATTR_ENTITY_ID (data set_led_on)) None w0).2.
Proof.
  split; [reflexivity|]. split; [reflexivity|]. split; [reflexivity|].
  split; [reflexivity|].
  intros H. vm_compute in H. discriminate H.
Qed.

End Installation.

(** * Further properties of the module *)

Section Further.

Context (ATTR_ENTITY_ID ATTR_ATTRIBUTION ATTR_BATTERY_CHARGING
         ATTR_BATTERY_LEVEL STATE_ON STATE_OFF ATTRIBUTION : string).
Context (sdk : World → nat → SDK.Call → Result pyval * SDK.Device).
Context (host : World → Host.Call → Result pyval).
Context (is_allowed_path : string → bool).
Context (async_render : Template → option string → Result string).

Ltac unfold_M := unfold when, lift, raise, mbind, M_bind, mret, M_ret.

(** *** Opening the live stream *)

(** What the statements before the [try] do, by the answer of the SDK to
    [last_activity], the session cache it leaves, and the answer of the
    transcoding process. *)
Lemma open_stream_run (self : LogiCam) (w : World) :
  open_stream sdk host self w
  = match sdk w (_camera self) SDK.last_activity with
    | (Raise e, _) => (Raise e, awaited sdk (_camera self) SDK.last_activity w)
    | (Return v, d) =>
        match SDK.logi_cache d !! "cookie" with
        | None =>
            (Raise KeyError, awaited sdk (_camera self) SDK.last_activity w)
        | Some cookie =>
            match v with
            | VActivity url =>
                (discard
                   (host (awaited sdk (_camera self) SDK.last_activity w)
                      (Host.open_camera (binary (_ffmpeg self))
                         (input_source cookie url))),
                 host_called
                   (Host.open_camera (binary (_ffmpeg self))
                      (input_source cookie url))
                   (awaited sdk (_camera self) SDK.last_activity w))
            | _ =>
                (Raise AttributeError,
                 awaited sdk (_camera self) SDK.last_activity w)
            end
        end
    end.
Proof.
  unfold open_stream. unfold mbind at 1, M_bind at 1.
  rewrite await_sdk_run.
  destruct (sdk w (_camera self) SDK.last_activity) as [[v|e] d] eqn:Hsdk;
    simpl; [|done].
  unfold mbind at 1, M_bind at 1, session_cache.
  assert (handles (awaited sdk (_camera self) SDK.last_activity w)
            (_camera self) = d) as ->.
  { unfold awaited. simpl. rewrite Hsdk. simpl. apply fn_lookup_insert. }
  destruct (SDK.logi_cache d !! "cookie") as [cookie|]; [|done].
  destruct v; try done.
  simpl. unfold await_host, input_source. unfold_M.
  by destruct (host _ _).
Qed.

(** X1.  The transcoding process is started only for a camera that has a
    last activity and a session cookie.  If the fetch of the last activity
    raises, the handler raises the same; if the session cache holds no
    cookie, it raises [KeyError]; if the camera has no activity (the fetch
    gives [None]), it raises [AttributeError].  In each case the fetch is
    the only call made: no process is opened, none is closed. *)
Theorem stream_needs_activity_and_cookie
    (self : LogiCam) (request : pyval) (w : World) :
  (∀ e, (sdk w (_camera self) SDK.last_activity).1 = Raise e →
     handle_async_mjpeg_stream sdk host self request w
     = (Raise e, awaited sdk (_camera self) SDK.last_activity w))
  ∧ (∀ v, (sdk w (_camera self) SDK.last_activity).1 = Return v →
       SDK.logi_cache (sdk w (_camera self) SDK.last_activity).2 !! "cookie"
         = None →
       handle_async_mjpeg_stream sdk host self request w
       = (Raise KeyError, awaited sdk (_camera self) SDK.last_activity w))
  ∧ (∀ cookie,
       (sdk w (_camera self) SDK.last_activity).1 = Return VNone →
       SDK.logi_cache (sdk w (_camera self) SDK.last_activity).2 !! "cookie"
         = Some cookie →
       handle_async_mjpeg_stream sdk host self request w
       = (Raise AttributeError,
          awaited sdk (_camera self) SDK.last_activity w)).
Proof.
  unfold handle_async_mjpeg_stream.
  pose proof (open_stream_run self w) as Hopen.
  destruct (sdk w (_camera self) SDK.last_activity) as [r d]. simpl.
  split; [|split].
  - intros e ->. by rewrite (bind_Raise _ _ _ _ _ Hopen).
  - intros v -> Hcookie. rewrite Hcookie in Hopen.
    by rewrite (bind_Raise _ _ _ _ _ Hopen).
  - intros cookie -> Hcookie. rewrite Hcookie in Hopen.
    by rewrite (bind_Raise _ _ _ _ _ Hopen).
Qed.

(** X2.  If the transcoding process cannot be opened, the exception of
    [open_camera] is raised to the caller and the handler stops there: the
    [try] is never entered, so no reader is asked for, nothing is proxied,
    and [close] is not called on the process. *)
Theorem failed_open_is_not_closed
    (self : LogiCam) (request : pyval) (w : World)
    (url cookie : string) (e : exn) :
  (sdk w (_camera self) SDK.last_activity).1 = Return (VActivity url) →
  SDK.logi_cache (sdk w (_camera self) SDK.last_activity).2 !! "cookie"
    = Some cookie →
  host (awaited sdk (_camera self) SDK.last_activity w)
    (Host.open_camera (binary (_ffmpeg self)) (input_source cookie url))
    = Raise e →
  handle_async_mjpeg_stream sdk host self request w
  = (Raise e,
     host_called
       (Host.open_camera (binary (_ffmpeg self)) (input_source cookie url))
       (awaited sdk (_camera self) SDK.last_activity w))
  ∧ trace (handle_async_mjpeg_stream sdk host self request w).2
    = trace w ++ [Await (_camera self) SDK.last_activity;
                  HostCall (Host.open_camera (binary (_ffmpeg self))
                              (input_source cookie url))].
Proof.
  intros Hactivity Hcookie Hstart.
  pose proof (open_stream_run self w) as Hopen.
  destruct (sdk w (_camera self) SDK.last_activity) as [r d].
  simpl in Hactivity, Hcookie. subst r.
  rewrite Hcookie, Hstart in Hopen. simpl in Hopen.
  unfold handle_async_mjpeg_stream.
  rewrite (bind_Raise _ _ _ _ _ Hopen). split; [done|].
  simpl. by rewrite <- app_assoc.
Qed.

(** X3.  The order of the calls of a stream request whose process opens:
    the last activity is fetched; the process is opened on the session
    cookie, as a quoted header, and the download URL of that activity; a
    reader is asked for; the stream is proxied to the request of the
    caller with that reader and the content type of the ffmpeg manager;
    and the process is closed.  If no reader is given, nothing is proxied,
    and the process is closed all the same. *)
Theorem stream_call_order
    (self : LogiCam) (request : pyval) (w : World)
    (url cookie : string) (opened : pyval) :
  (sdk w (_camera self) SDK.last_activity).1 = Return (VActivity url) →
  SDK.logi_cache (sdk w (_camera self) SDK.last_activity).2 !! "cookie"
    = Some cookie →
  host (awaited sdk (_camera self) SDK.last_activity w)
    (Host.open_camera (binary (_ffmpeg self)) (input_source cookie url))
    = Return opened →
  trace (handle_async_mjpeg_stream sdk host self request w).2
  = trace w
    ++ [Await (_camera self) SDK.last_activity;
        HostCall (Host.open_camera (binary (_ffmpeg self))
                    (input_source cookie url))]
    ++ match host
               (host_called
                  (Host.open_camera (binary (_ffmpeg self))
                     (input_source cookie url))
                  (awaited sdk (_camera self) SDK.last_activity w))
               Host.get_reader with
       | Return stream_reader =>
           [HostCall Host.get_reader;
            HostCall (Host.async_aiohttp_proxy_stream request stream_reader
                        (ffmpeg_stream_content_type (_ffmpeg self)));
            HostCall Host.close]
       | Raise _ => [HostCall Host.get_reader; HostCall Host.close]
       end.
Proof.
  intros Hactivity Hcookie Hstart.
  pose proof (open_stream_run self w) as Hopen.
  destruct (sdk w (_camera self) SDK.last_activity) as [r d].
  simpl in Hactivity, Hcookie. subst r.
  rewrite Hcookie, Hstart in Hopen. simpl in Hopen.
  rewrite (stream_run _ _ _ _ _ _ Hopen). simpl.
  unfold proxy_stream, await_host, mbind, M_bind.
  destruct (host _ Host.get_reader) as [stream_reader|e]; simpl;
    by rewrite <- !app_assoc.
Qed.

(** *** Dispatch: what the handler ignores *)

Lemma for_each_skip {A} (xs : list A) (body : A → M unit) w :
  (∀ x w', x ∈ xs → body x w' = (Return tt, w')) →
  for_each xs body w = (Return tt, w).
Proof.
  revert w. induction xs as [|x xs IH]; intros w Hbody; [done|].
  simpl. unfold mbind, M_bind. rewrite Hbody by apply list_elem_of_here.
  apply IH. intros y w' Hy. apply Hbody. by apply list_elem_of_further.
Qed.

Lemma selected_none (cameras : list LogiCam) (ids : list string) :
  (∀ dev, dev ∈ cameras → entity_id dev ∉ Some <$> ids) →
  selected cameras (Some ids) = [].
Proof.
  intros Hnone. simpl. induction cameras as [|dev cameras IH]; [done|].
  rewrite filter_cons. destruct (decide _) as [Hin|_].
  - by apply Hnone in Hin; [|apply list_elem_of_here].
  - apply IH. intros dev' Hdev'. apply Hnone. by apply list_elem_of_further.
Qed.

(** X4.  A call under a name that is none of the three commands has no
    effect: whatever its targets and parameters, the handler invokes
    nothing on them and returns. *)
Theorem unknown_command_is_ignored
    (cameras targets : list LogiCam) (call : ServiceCall) (w : World) :
  service call ≠ SERVICE_SET_CONFIG →
  service call ≠ SERVICE_LIVESTREAM_SNAPSHOT →
  service call ≠ SERVICE_LIVESTREAM_RECORD →
  target_devices ATTR_ENTITY_ID cameras call = Return targets →
  service_handler ATTR_ENTITY_ID sdk is_allowed_path async_render
    cameras call w
  = (Return tt, w).
Proof.
  intros H1 H2 H3 Htargets.
  rewrite (service_handler_run _ _ _ _ _ _ _ _ Htargets).
  apply for_each_skip. intros adapter w' _. unfold operation.
  by rewrite !bool_decide_eq_false_2.
Qed.

(** X5.  Identifiers that belong to no known adapter are ignored: a
    command whose target list names only such identifiers reaches no
    adapter, and it is no error. *)
Theorem unknown_targets_reach_nothing
    (cameras : list LogiCam) (call : ServiceCall) (ids : list string)
    (w : World) :
  data call !! ATTR_ENTITY_ID = Some (VList (VStr <$> ids)) →
  ids ≠ [] →
  (∀ dev, dev ∈ cameras → entity_id dev ∉ Some <$> ids) →
  service_handler ATTR_ENTITY_ID sdk is_allowed_path async_render
    cameras call w
  = (Return tt, w).
Proof.
  intros Hids Hne Hnone.
  rewrite (service_handler_run _ _ _ _ _ _ _ _
             (target_devices_explicit _ cameras call ids Hids Hne)).
  by rewrite (selected_none _ _ Hnone).
Qed.


Lemma prefix_length (s t : string) :
  String.prefix s t = true → (String.length s ≤ String.length t)%nat.
Proof.
  revert t. induction s as [|a s IH]; intros t; simpl; [lia|].
  destruct t as [|b t]; [done|]. simpl.
  destruct (Ascii.ascii_dec a b); [|done].
  intros H. apply IH in H. lia.
Qed.

Lemma is_substring_length (s t : string) :
  is_substring s t = true → (String.length s ≤ String.length t)%nat.
Proof.
  induction t as [|b t IH]; simpl.
  - rewrite orb_false_r. apply (prefix_length s EmptyString).
  - intros [H|H]%orb_true_iff.
    + apply (prefix_length s (String b t)) in H. simpl in H. lia.
    + apply IH in H. lia.
Qed.

Lemma prefix_spec (s t : string) :
  String.prefix s t = true ↔ ∃ after, t = s +:+ after.
Proof.
  revert t. induction s as [|a s IH]; intros t; simpl.
  - destruct t; simpl; (split; [intros _; by eexists | done]).
  - destruct t as [|b t]; simpl.
    + split; [done | by intros [after [=]]].
    + destruct (Ascii.ascii_dec a b) as [->|Hne].
      * rewrite IH. split; intros [after H]; exists after.
        -- by rewrite H.
        -- change (String b s +:+ after) with (String b (s +:+ after)) in H.
           congruence.
      * split; [done | intros [after [=]]; done].
Qed.

Lemma is_substring_unfold (s t : string) :
  is_substring s t
  = String.prefix s t
    || match t with
       | EmptyString => false
       | String _ t' => is_substring s t'
       end.
Proof. by destruct t. Qed.

Lemma is_substring_spec (s t : string) : is_substring s t = true ↔ occurs s t.
Proof.
  unfold occurs. split.
  - induction t as [|b t IH]; simpl.
    + rewrite orb_false_r. intros [after ->]%(prefix_spec s EmptyString).
      by exists EmptyString, after.
    + intros [H|H]%orb_true_iff.
      * apply (prefix_spec s (String b t)) in H as [after ->].
        by exists EmptyString, after.
      * destruct (IH H) as (before & after & ->).
        by exists (String b before), after.
  - intros (before & after & ->).
    induction before as [|b before IH].
    + replace (EmptyString +:+ s +:+ after) with (s +:+ after) by done.
      assert (String.prefix s (s +:+ after) = true) as Hprefix
        by (apply prefix_spec; by exists after).
      by rewrite is_substring_unfold, Hprefix.
    + replace (String b before +:+ s +:+ after)
        with (String b (before +:+ s +:+ after)) by done.
      rewrite is_substring_unfold, IH. apply orb_true_r.
Qed.

Lemma list_comp_total {A} (xs : list A) (cond : A → Result bool) :
  (∀ x, x ∈ xs → ∃ b, cond x = Return b) →
  ∃ ys, list_comp xs cond = Return ys
        ∧ sublist ys xs
        ∧ ∀ x, x ∈ ys ↔ x ∈ xs ∧ cond x = Return true.
Proof.
  induction xs as [|x xs IH]; intros Hcond.
  - exists []. split; [done|]. split; [constructor|].
    intros x. rewrite elem_of_nil. tauto.
  - destruct IH as (ys & Hys & Hsub & Hin).
    { intros y Hy. by apply Hcond, list_elem_of_further. }
    destruct (Hcond x (list_elem_of_here _ _)) as [b Hb].
    simpl. rewrite Hb, Hys. destruct b.
    + exists (x :: ys). split; [done|]. split; [by constructor|].
      intros y. rewrite !elem_of_cons, Hin. split.
      * intros [->|[? ?]]; auto.
      * intros [[->|?] ?]; auto.
    + exists ys. split; [done|]. split; [by constructor|].
      intros y. rewrite elem_of_cons, Hin. split.
      * intros [? ?]; auto.
      * intros [[->|?] ?]; [congruence | auto].
Qed.

(** X7.  A target given as one string, not as a list, is not compared
    with the identifiers: each identifier is looked for inside the string.
    The adapters served are, in the order of the known adapters, those
    whose identifier occurs somewhere in the string.  So a string shorter
    than every identifier of a known adapter (the keyword [all], say)
    reaches no adapter at all. *)
Theorem string_target_is_searched
    (cameras : list LogiCam) (call : ServiceCall) (target : string)
    (w : World) :
  data call !! ATTR_ENTITY_ID = Some (VStr target) →
  target ≠ EmptyString →
  (∀ dev, dev ∈ cameras → is_Some (entity_id dev)) →
  ∃ targets,
    target_devices ATTR_ENTITY_ID cameras call = Return targets
    ∧ sublist targets cameras
    ∧ (∀ dev, dev ∈ targets ↔
         dev ∈ cameras ∧ ∃ id, entity_id dev = Some id ∧ occurs id target)
    ∧ service_handler ATTR_ENTITY_ID sdk is_allowed_path async_render
        cameras call w
      = in_turn targets
          (λ adapter, operation sdk is_allowed_path async_render
                        (service call) adapter
                        (delete ATTR_ENTITY_ID (data call))) w
    ∧ ((∀ dev id, dev ∈ cameras → entity_id dev = Some id →
          (String.length target < String.length id)%nat) →
       service_handler ATTR_ENTITY_ID sdk is_allowed_path async_render
         cameras call w
       = (Return tt, w)).
Proof.
  intros Htarget Hne Hregistered.
  destruct (list_comp_total cameras
              (λ dev, py_in (entity_id dev) (VStr target)))
    as (targets & Htargets & Hsub & Hin).
  { intros dev [id Hid]%Hregistered. rewrite Hid. by eexists. }
  assert (target_devices ATTR_ENTITY_ID cameras call = Return targets)
    as Hselected.
  { unfold target_devices, dict_get. rewrite Htarget. simpl.
    by destruct target. }
  assert (∀ dev, dev ∈ targets ↔
            dev ∈ cameras ∧ ∃ id, entity_id dev = Some id ∧ occurs id target)
    as Hmembers.
  { intros dev. rewrite Hin. split.
    - intros [Hdev Hfound]. split; [done|].
      destruct (Hregistered dev Hdev) as [id Hid]. exists id. split; [done|].
      rewrite Hid in Hfound. simpl in Hfound.
      apply is_substring_spec. congruence.
    - intros [Hdev (id & Hid & Hoccurs)]. split; [done|].
      rewrite Hid. simpl. f_equal. by apply is_substring_spec. }
  exists targets. repeat (split; [done|]).
  rewrite (service_handler_run _ _ _ _ _ _ _ _ Hselected), for_each_in_turn.
  split; [done|]. intros Hshort.
  destruct targets as [|dev targets]; [done|].
  destruct (proj1 (Hmembers dev) (list_elem_of_here _ _))
    as [Hdev (id & Hid & Hoccurs)].
  apply is_substring_spec, is_substring_length in Hoccurs.
  specialize (Hshort dev id Hdev Hid). lia.
Qed.

(** X8.  The adapters come out of the platform set-up without an entity
    identifier; until the host has given them one, no list of target
    identifiers selects any of them. *)
Theorem unregistered_adapters_are_not_selected
    (devices : list nat) (config : gmap string pyval) (ffmpeg : FFmpegManager)
    (w_init : World) (call : ServiceCall) (ids : list string) (w : World) :
  data call !! ATTR_ENTITY_ID = Some (VList (VStr <$> ids)) →
  ids ≠ [] →
  service_handler ATTR_ENTITY_ID sdk is_allowed_path async_render
    (async_setup_platform devices config ffmpeg w_init) call w
  = (Return tt, w).
Proof.
  intros Hids Hne.
  rewrite (service_handler_run _ _ _ _ _ _ _ _
             (target_devices_explicit _ _ call ids Hids Hne)).
  rewrite selected_none; [done|].
  intros dev (device & -> & _)%list_elem_of_fmap. simpl.
  intros (id & [=] & _)%list_elem_of_fmap.
Qed.

(** *** Dispatch: which handles are called *)

Lemma calls_on_await_other dev d c t :
  d ≠ dev → calls_on dev (t ++ [Await d c]) = calls_on dev t.
Proof.
  intros Hne. unfold calls_on. rewrite omap_app. simpl.
  rewrite bool_decide_eq_false_2 by done. apply app_nil_r.
Qed.

Lemma calls_on_shield_other dev d c t :
  d ≠ dev → calls_on dev (t ++ [Shield d c]) = calls_on dev t.
Proof.
  intros Hne. unfold calls_on. rewrite omap_app. simpl.
  rewrite bool_decide_eq_false_2 by done. apply app_nil_r.
Qed.

Lemma quiet_ret {A} dev (a : A) : quiet_on dev (mret a : M A).
Proof. by intros w. Qed.

Lemma quiet_raise {A} dev e : quiet_on dev (raise e : M A).
Proof. by intros w. Qed.

Lemma quiet_lift {A} dev (r : Result A) : quiet_on dev (lift r).
Proof. by intros w. Qed.

Lemma quiet_bind {A B} dev (m : M A) (k : A → M B) :
  quiet_on dev m → (∀ a, quiet_on dev (k a)) → quiet_on dev (m ≫= k).
Proof.
  intros Hm Hk w. unfold mbind, M_bind. specialize (Hm w).
  destruct (m w) as [[a|e] w']; simpl in *; [|done].
  by rewrite Hk.
Qed.

Lemma quiet_when dev c (m : M unit) : quiet_on dev m → quiet_on dev (when c m).
Proof. intros Hm. destruct c; [done | apply quiet_ret]. Qed.

Lemma quiet_await dev d c : d ≠ dev → quiet_on dev (await_sdk sdk d c).
Proof.
  intros Hne w. rewrite await_sdk_run. simpl.
  by apply calls_on_await_other.
Qed.

Lemma quiet_shield dev d c : d ≠ dev → quiet_on dev (shield d c).
Proof.
  intros Hne w. simpl. by apply calls_on_shield_other.
Qed.

Lemma quiet_logger dev msg : quiet_on dev (logger_error msg).
Proof. by intros w. Qed.

Create HintDb quiet.
Hint Resolve quiet_ret quiet_raise quiet_lift quiet_when quiet_await
  quiet_shield quiet_logger : quiet.

Lemma quiet_set_config dev (self : LogiCam) mode value :
  _camera self ≠ dev → quiet_on dev (set_config sdk self mode value).
Proof.
  intros Hne. unfold set_config.
  repeat (apply quiet_bind; [|intros ?]); auto 6 using quiet_bind with quiet.
Qed.

Lemma quiet_livestream_snapshot dev (self : LogiCam) filename :
  _camera self ≠ dev →
  quiet_on dev (livestream_snapshot is_allowed_path async_render self filename).
Proof.
  intros Hne. unfold livestream_snapshot, set_hass.
  apply quiet_bind; [destruct filename; auto with quiet|]. intros tpl.
  apply quiet_bind; [auto with quiet|]. intros file.
  destruct (negb _); auto with quiet.
Qed.

Lemma quiet_download_livestream dev (self : LogiCam) filename duration :
  _camera self ≠ dev →
  quiet_on dev
    (download_livestream is_allowed_path async_render self filename duration).
Proof.
  intros Hne. unfold download_livestream, set_hass.
  apply quiet_bind; [destruct filename; auto with quiet|]. intros tpl.
  apply quiet_bind; [auto with quiet|]. intros file.
  destruct (negb _); [auto with quiet|].
  apply quiet_bind; auto with quiet.
Qed.

Lemma quiet_operation dev name (adapter : LogiCam) params :
  _camera adapter ≠ dev →
  quiet_on dev (operation sdk is_allowed_path async_render name adapter params).
Proof.
  intros Hne. unfold operation, call_kw1, call_kw2.
  repeat case_bool_decide;
    repeat (destruct (params !! _)); auto with quiet;
    auto using quiet_set_config, quiet_livestream_snapshot,
      quiet_download_livestream.
Qed.

Lemma quiet_for_each {A} dev (xs : list A) (body : A → M unit) :
  (∀ x, x ∈ xs → quiet_on dev (body x)) → quiet_on dev (for_each xs body).
Proof.
  induction xs as [|x xs IH]; intros Hbody; [apply quiet_ret|].
  simpl. apply quiet_bind; [apply Hbody, list_elem_of_here|].
  intros _. apply IH. intros y Hy. by apply Hbody, list_elem_of_further.
Qed.

(** X9.  A dispatched command calls the Device Handles of its targets and
    no others: for a handle that belongs to none of the selected adapters,
    the calls in the trace after the run are those before it.  This holds
    whether the run returns or raises. *)
Theorem dispatch_calls_only_the_targets
    (cameras targets : list LogiCam) (call : ServiceCall) (dev : nat)
    (w : World) :
  target_devices ATTR_ENTITY_ID cameras call = Return targets →
  dev ∉ _camera <$> targets →
  calls_on dev
    (trace (service_handler ATTR_ENTITY_ID sdk is_allowed_path async_render
              cameras call w).2)
  = calls_on dev (trace w).
Proof.
  intros Htargets Hdev.
  rewrite (service_handler_run _ _ _ _ _ _ _ _ Htargets).
  apply quiet_for_each. intros adapter Hadapter.
  apply quiet_operation. intros <-. apply Hdev.
  by apply list_elem_of_fmap_2.
Qed.

(** *** Dispatch: malformed and well-formed commands *)

Lemma operation_unbound name (adapter : LogiCam) params w :
  binds name params = false →
  operation sdk is_allowed_path async_render name adapter params w
  = (Raise TypeError, w).
Proof.
  unfold binds, operation, binds1, binds2, call_kw1, call_kw2.
  repeat case_bool_decide; try done;
    repeat match goal with
           | |- context [params !! ?k] => destruct (params !! k) eqn:?
           end;
    simpl; try done;
    repeat match goal with
           | H : ¬ is_Some (Some _) |- _ => by destruct H
           end.
Qed.

(** X10.  A command whose parameters are not the ones its operation takes
    (one is missing, or there is one too many) raises [TypeError] at the
    first target, before the operation has done anything: no Device Handle
    is called, nothing is logged, and the other targets are not reached. *)
Theorem malformed_parameters_raise
    (cameras rest : list LogiCam) (first : LogiCam) (call : ServiceCall)
    (w : World) :
  target_devices ATTR_ENTITY_ID cameras call = Return (first :: rest) →
  binds (service call) (delete ATTR_ENTITY_ID (data call)) = false →
  service_handler ATTR_ENTITY_ID sdk is_allowed_path async_render
    cameras call w
  = (Raise TypeError, w).
Proof.
  intros Htargets Hunbound.
  rewrite (service_handler_run _ _ _ _ _ _ _ _ Htargets). simpl.
  unfold mbind, M_bind. by rewrite operation_unbound.
Qed.

(** X11.  A snapshot dispatched to several adapters is decided adapter by
    adapter: each target whose path the whitelist accepts gets its call,
    each target whose path is refused gets its log entry, in the order of
    the targets, and the handler returns normally.  A refusal for one
    adapter does not keep the command from the adapters after it. *)
Theorem snapshot_is_decided_per_adapter
    (cameras targets : list LogiCam) (call : ServiceCall) (tpl : Template)
    (path : LogiCam → string) (w : World) :
  service call = SERVICE_LIVESTREAM_SNAPSHOT →
  delete ATTR_ENTITY_ID (data call) = {["filename" := VTemplate tpl]} →
  target_devices ATTR_ENTITY_ID cameras call = Return targets →
  (∀ dev, dev ∈ targets → async_render tpl (entity_id dev) = Return (path dev)) →
  service_handler ATTR_ENTITY_ID sdk is_allowed_path async_render
    cameras call w
  = (Return tt,
     foldl (λ w' dev, snapshot_effect is_allowed_path (_camera dev) (path dev) w')
       w targets).
Proof.
  intros Hname Hparams Htargets Hrender.
  rewrite (service_handler_run _ _ _ _ _ _ _ _ Htargets), Hname, Hparams.
  clear Htargets. revert w.
  induction targets as [|dev targets IH]; intros w; [done|].
  simpl. unfold mbind, M_bind.
  assert (operation sdk is_allowed_path async_render
            SERVICE_LIVESTREAM_SNAPSHOT dev
            {["filename" := VTemplate tpl]} w
          = (Return tt,
             snapshot_effect is_allowed_path (_camera dev) (path dev) w)) as ->.
  { unfold operation. simpl. unfold call_kw1.
    rewrite lookup_singleton_eq, map_size_singleton. simpl.
    apply snapshot_run, Hrender, list_elem_of_here. }
  apply IH. intros dev' Hdev'. by apply Hrender, list_elem_of_further.
Qed.

(** X12.  A configuration command on a reachable installation sets the
    mode on every target, once, in the order of the targets: when no
    setter call raises, the handler returns normally and the trace grows by
    one [set_led] call for each target, with the value of the command. *)
Theorem led_command_reaches_each_target_once
    (cameras targets : list LogiCam) (call : ServiceCall) (value : pyval)
    (w : World) :
  service call = SERVICE_SET_CONFIG →
  delete ATTR_ENTITY_ID (data call)
    = {["mode" := VStr LED_MODE_KEY; "value" := value]} →
  target_devices ATTR_ENTITY_ID cameras call = Return targets →
  (∀ w' dev, ∃ r, (sdk w' dev (SDK.set_led value)).1 = Return r) →
  (service_handler ATTR_ENTITY_ID sdk is_allowed_path async_render
     cameras call w).1 = Return tt
  ∧ trace (service_handler ATTR_ENTITY_ID sdk is_allowed_path async_render
             cameras call w).2
    = trace w
      ++ ((λ dev, Await (_camera dev) (SDK.set_led value)) <$> targets).
Proof.
  intros Hname Hparams Htargets Hreach.
  rewrite (service_handler_run _ _ _ _ _ _ _ _ Htargets), Hname, Hparams.
  clear Htargets. revert w.
  induction targets as [|dev targets IH]; intros w.
  { simpl. by rewrite app_nil_r. }
  simpl. unfold mbind, M_bind.
  assert (operation sdk is_allowed_path async_render SERVICE_SET_CONFIG dev
            {["mode" := VStr LED_MODE_KEY; "value" := value]} w
          = (Return tt, awaited sdk (_camera dev) (SDK.set_led value) w)) as ->.
  { unfold operation. simpl. unfold call_kw2.
    rewrite lookup_insert_eq, lookup_insert_ne, lookup_singleton_eq by done.
    rewrite map_size_insert_None, map_size_singleton
      by (by rewrite lookup_singleton_ne).
    simpl. unfold set_config. simpl. unfold_M.
    rewrite await_sdk_run.
    destruct (Hreach w (_camera dev)) as [r Hr]. by rewrite Hr. }
  destruct (IH (awaited sdk (_camera dev) (SDK.set_led value) w)) as [-> ->].
  split; [done|]. simpl. by rewrite <- app_assoc.
Qed.

(** *** File operations: what is checked, and when *)

(** X13.  A file name that is no template, or a template that fails to
    render, ends a snapshot or a recording before the whitelist is asked:
    the exception ([AttributeError], or the one of the renderer) is raised,
    nothing is logged, and no call is made, for a path the whitelist would
    accept as for one it would refuse. *)
Theorem unusable_file_name_has_no_effect
    (self : LogiCam) (filename duration : pyval) (w : World) :
  ((∀ tpl, filename ≠ VTemplate tpl) →
     livestream_snapshot is_allowed_path async_render self filename w
       = (Raise AttributeError, w)
     ∧ download_livestream is_allowed_path async_render self filename
         duration w
       = (Raise AttributeError, w))
  ∧ (∀ tpl e,
       filename = VTemplate tpl →
       async_render tpl (entity_id self) = Raise e →
       livestream_snapshot is_allowed_path async_render self filename w
         = (Raise e, w)
       ∧ download_livestream is_allowed_path async_render self filename
           duration w
         = (Raise e, w)).
Proof.
  unfold livestream_snapshot, download_livestream, set_hass. split.
  - intros Hno. destruct filename; try done. by destruct (Hno t).
  - intros tpl e -> Hrender. unfold_M. by rewrite Hrender.
Qed.

(** X14.  The duration of a recording is looked at only once the path is
    accepted, and then it must fit a time span: for an accepted path and a
    number of seconds below -86399999913600 or above 86399999999999 the
    recording raises [OverflowError] and makes no call, while for a refused
    path the same duration is never looked at. *)
Theorem recording_duration_bounds
    (self : LogiCam) (tpl : Template) (P : string) (secs : Z) (w : World) :
  async_render tpl (entity_id self) = Return P →
  secs < -86399999913600 ∨ 86399999999999 < secs →
  download_livestream is_allowed_path async_render self (VTemplate tpl)
    (VInt secs) w
  = if is_allowed_path P
    then (Raise OverflowError, w)
    else (Return tt, logged (no_access P) w).
Proof.
  intros Hrender Hout. rewrite (record_run _ _ _ _ _ _ _ Hrender).
  destruct (is_allowed_path P); [|done].
  simpl. unfold timedelta_of_seconds.
  pose proof (Z.div_mod secs 86400 ltac:(lia)) as Hdm.
  pose proof (Z.mod_pos_bound secs 86400 ltac:(lia)) as Hmod.
  by rewrite bool_decide_eq_false_2 by lia.
Qed.

(** *** State attributes: their names *)

(** X15.  The names of the state attributes are fixed when the adapter is
    made: four names for every adapter, and the two battery names with
    them for an adapter made with the battery flag.  No later state of the
    Device Handle adds a name or takes one away. *)
Theorem attribute_names_are_fixed (self : LogiCam) (w : World) :
  dom (device_state_attributes ATTR_ATTRIBUTION ATTR_BATTERY_CHARGING
         ATTR_BATTERY_LEVEL STATE_ON STATE_OFF ATTRIBUTION self w)
  = ({[ATTR_ATTRIBUTION; "battery_saving_mode"; "ip_address";
       "microphone_gain"]} : gset string)
    ∪ (if _has_battery self
       then {[ATTR_BATTERY_CHARGING; ATTR_BATTERY_LEVEL]}
       else ∅).
Proof.
  unfold device_state_attributes.
  destruct (_has_battery self); rewrite !dom_insert_L, dom_empty_L;
    apply set_eq; intros k;
    rewrite !elem_of_union, !elem_of_singleton, !elem_of_empty; tauto.
Qed.

End Further.

(** * The further properties on the concrete installation *)

Section FurtherInstallation.

Import Scenario.

Lemma stream_needs_activity_and_cookie_witness :
  handle_async_mjpeg_stream (sdk_offline 0) host_ok cam1 (VObject 7) w0
  = (Raise ClientError, awaited (sdk_offline 0) 0 SDK.last_activity w0)
  ∧ handle_async_mjpeg_stream sdk_ok host_ok cam1 (VObject 7) w_logged_out
    = (Raise KeyError, awaited sdk_ok 0 SDK.last_activity w_logged_out)
  ∧ handle_async_mjpeg_stream sdk_no_activity host_ok cam1 (VObject 7) w0
    = (Raise AttributeError, awaited sdk_no_activity 0 SDK.last_activity w0).
Proof.
  pose proof (stream_needs_activity_and_cookie (sdk_offline 0) host_ok cam1
                (VObject 7) w0) as (Hfetch & _ & _).
  pose proof (stream_needs_activity_and_cookie sdk_ok host_ok cam1
                (VObject 7) w_logged_out) as (_ & Hcookie & _).
  pose proof (stream_needs_activity_and_cookie sdk_no_activity host_ok cam1
                (VObject 7) w0) as (_ & _ & Hnone).
  split; [|split].
  - apply Hfetch. reflexivity.
  - apply (Hcookie (VActivity "https://video.logi.com/a.mp4")); reflexivity.
  - apply (Hnone "prod_session=abc"); reflexivity.
Defined.

Lemma failed_open_is_not_closed_witness :
  (stream host_cannot_start).1 = Raise TimeoutError
  ∧ HostCall Host.close ∉ trace (stream host_cannot_start).2.
Proof.
  unfold stream.
  destruct (failed_open_is_not_closed sdk_ok host_cannot_start cam1
              (VObject 7) w0 "https://video.logi.com/a.mp4"
              "prod_session=abc" TimeoutError eq_refl eq_refl eq_refl)
    as [-> Htrace].
  split; [reflexivity|]. simpl.
  rewrite !not_elem_of_cons. repeat split; try discriminate.
  apply not_elem_of_nil.
Defined.

Lemma stream_call_order_witness :
  trace (stream host_no_reader).2
  = [Await 0 SDK.last_activity;
     HostCall (Host.open_camera "ffmpeg"
                 (input_source "prod_session=abc"
                    "https://video.logi.com/a.mp4"));
     HostCall Host.get_reader;
     HostCall Host.close]
  ∧ trace (stream host_ok).2
    = [Await 0 SDK.last_activity;
       HostCall (Host.open_camera "ffmpeg"
                   (input_source "prod_session=abc"
                      "https://video.logi.com/a.mp4"));
       HostCall Host.get_reader;
       HostCall (Host.async_aiohttp_proxy_stream (VObject 7) (VObject 1)
                   "multipart/x-mixed-replace");
       HostCall Host.close].
Proof.
  unfold stream. split.
  - rewrite (stream_call_order sdk_ok host_no_reader cam1 (VObject 7) w0
               "https://video.logi.com/a.mp4" "prod_session=abc" VNone
               eq_refl eq_refl eq_refl).
    reflexivity.
  - rewrite (stream_call_order sdk_ok host_ok cam1 (VObject 7) w0
               "https://video.logi.com/a.mp4" "prod_session=abc" VNone
               eq_refl eq_refl eq_refl).
    reflexivity.
Defined.

Lemma unknown_command_is_ignored_witness :
  handler sdk_ok reboot = (Return tt, w0).
Proof.
  unfold handler.
  apply (unknown_command_is_ignored ATTR_ENTITY_ID sdk_ok is_allowed_path
           async_render cameras cameras reboot w0);
    [discriminate | discriminate | discriminate | reflexivity].
Defined.

Lemma unknown_targets_reach_nothing_witness :
  handler sdk_ok (targeting (VList [VStr "camera.porch"]) set_led_on)
  = (Return tt, w0).
Proof.
  unfold handler.
  apply (unknown_targets_reach_nothing ATTR_ENTITY_ID sdk_ok is_allowed_path
           async_render cameras _ ["camera.porch"] w0);
    [reflexivity | discriminate |].
  intros dev Hdev. change cameras with [cam1; cam2; cam3] in Hdev.
  rewrite !elem_of_cons, elem_of_nil in Hdev.
  destruct Hdev as [-> | [-> | [-> | []]]];
    apply (bool_decide_unpack _); vm_compute; exact I.
Defined.


Lemma string_target_is_searched_witness :
  trace (handler sdk_ok
           (targeting (VStr "camera.cam1, camera.cam3") set_led_on)).2
  = [Await 0 led_on; Await 2 led_on]
  ∧ handler sdk_ok (targeting (VStr "all") set_led_on) = (Return tt, w0).
Proof.
  assert (∀ dev, dev ∈ cameras → is_Some (entity_id dev)) as Hregistered.
  { intros dev Hdev. change cameras with [cam1; cam2; cam3] in Hdev.
    rewrite !elem_of_cons, elem_of_nil in Hdev.
    destruct Hdev as [-> | [-> | [-> | []]]]; eexists; reflexivity. }
  unfold handler. split.
  - destruct (string_target_is_searched ATTR_ENTITY_ID sdk_ok is_allowed_path
                async_render cameras
                (targeting (VStr "camera.cam1, camera.cam3") set_led_on)
                "camera.cam1, camera.cam3" w0 eq_refl)
      as (targets & Hselected & _ & _ & Hrun & _);
      [discriminate | exact Hregistered |].
    rewrite Hrun. vm_compute in Hselected.
    injection Hselected as <-. reflexivity.
  - destruct (string_target_is_searched ATTR_ENTITY_ID sdk_ok is_allowed_path
                async_render cameras (targeting (VStr "all") set_led_on)
                "all" w0 eq_refl)
      as (targets & _ & _ & _ & _ & Hshort);
      [discriminate | exact Hregistered |].
    apply Hshort. intros dev id Hdev.
    change cameras with [cam1; cam2; cam3] in Hdev.
    rewrite !elem_of_cons, elem_of_nil in Hdev.
    destruct Hdev as [-> | [-> | [-> | []]]]; intros [= <-]; simpl; lia.
Defined.

Lemma unregistered_adapters_are_not_selected_witness :
  service_handler ATTR_ENTITY_ID sdk_ok is_allowed_path async_render
    fresh_cameras (targeting two_of_three set_led_on) w0
  = (Return tt, w0).
Proof.
  apply (unregistered_adapters_are_not_selected ATTR_ENTITY_ID sdk_ok
           is_allowed_path async_render [0; 1; 2]%nat ∅ ffmpeg w0 _
           ["camera.cam1"; "camera.cam3"] w0); [reflexivity | discriminate].
Defined.

Lemma dispatch_calls_only_the_targets_witness :
  calls_on 1 (trace (handler sdk_ok (targeting two_of_three set_led_on)).2)
  = [].
Proof.
  unfold handler.
  rewrite (dispatch_calls_only_the_targets ATTR_ENTITY_ID sdk_ok
             is_allowed_path async_render cameras [cam1; cam3]
             (targeting two_of_three set_led_on) 1%nat w0 eq_refl).
  - reflexivity.
  - apply (bool_decide_unpack _). vm_compute. exact I.
Defined.

Lemma malformed_parameters_raise_witness :
  handler sdk_ok set_led_without_value = (Raise TypeError, w0).
Proof.
  unfold handler.
  apply (malformed_parameters_raise ATTR_ENTITY_ID sdk_ok is_allowed_path
           async_render cameras [cam2; cam3] cam1 set_led_without_value w0);
    reflexivity.
Defined.

Lemma snapshot_is_decided_per_adapter_witness :
  service_handler ATTR_ENTITY_ID sdk_ok only_cam2 async_render cameras
    (snapshot "/allowed/*") w0
  = (Return tt,
     logged (no_access "/allowed/camera.cam3")
       (launched 1 (SDK.get_livestream_image "/allowed/camera.cam2")
          (logged (no_access "/allowed/camera.cam1") w0))).
Proof.
  rewrite (snapshot_is_decided_per_adapter ATTR_ENTITY_ID sdk_ok only_cam2
             async_render cameras cameras (snapshot "/allowed/*")
             {| template := "/allowed/*" |} (path_of "/allowed/*") w0
             eq_refl eq_refl eq_refl).
  - reflexivity.
  - intros dev Hdev. change cameras with [cam1; cam2; cam3] in Hdev.
    rewrite !elem_of_cons, elem_of_nil in Hdev.
    destruct Hdev as [-> | [-> | [-> | []]]]; reflexivity.
Defined.

Lemma led_command_reaches_each_target_once_witness :
  (handler sdk_ok set_led_on).1 = Return tt
  ∧ trace (handler sdk_ok set_led_on).2
    = [Await 0 led_on; Await 1 led_on; Await 2 led_on].
Proof.
  unfold handler.
  destruct (led_command_reaches_each_target_once ATTR_ENTITY_ID sdk_ok
              is_allowed_path async_render cameras cameras set_led_on
              (VBool true) w0 eq_refl eq_refl eq_refl) as [-> ->].
  - intros w' dev. eexists. reflexivity.
  - split; reflexivity.
Defined.

Lemma unusable_file_name_has_no_effect_witness :
  livestream_snapshot is_allowed_path async_render cam1
    (VStr "/allowed/out.jpg") w0
  = (Raise AttributeError, w0)
  ∧ download_livestream is_allowed_path async_render
      (__init__ 0 ∅ ffmpeg w0)
      (VTemplate {| template := "/allowed/out.mp4" |}) (VInt 30) w0
    = (Raise TemplateError, w0).
Proof.
  split.
  - destruct (unusable_file_name_has_no_effect is_allowed_path async_render
                cam1 (VStr "/allowed/out.jpg") (VInt 30) w0) as [Hno _].
    apply Hno. discriminate.
  - destruct (unusable_file_name_has_no_effect is_allowed_path async_render
                (__init__ 0 ∅ ffmpeg w0)
                (VTemplate {| template := "/allowed/out.mp4" |})
                (VInt 30) w0) as [_ Hrender].
    apply (Hrender {| template := "/allowed/out.mp4" |} TemplateError);
      reflexivity.
Defined.

Lemma recording_duration_bounds_witness :
  download_livestream is_allowed_path async_render cam1
    (VTemplate {| template := "/allowed/out.mp4" |})
    (VInt 86400000000000) w0
  = (Raise OverflowError, w0)
  ∧ download_livestream is_allowed_path async_render cam1
      (VTemplate {| template := "/forbidden/out.mp4" |})
      (VInt 86400000000000) w0
    = (Return tt, logged (no_access "/forbidden/out.mp4") w0).
Proof.
  split.
  - rewrite (recording_duration_bounds is_allowed_path async_render cam1
               {| template := "/allowed/out.mp4" |} "/allowed/out.mp4"
               86400000000000 w0 eq_refl); [reflexivity | lia].
  - rewrite (recording_duration_bounds is_allowed_path async_render cam1
               {| template := "/forbidden/out.mp4" |} "/forbidden/out.mp4"
               86400000000000 w0 eq_refl); [reflexivity | lia].
Defined.

End FurtherInstallation.
